(** * MonitorKeeper: the window-placement cache of MonitorKeeper.cpp

    A shallow embedding of the two classes of MonitorKeeper.cpp
    ([SavedWindowData] and [InstanceData]) and of the callbacks that drive
    them ([SaveWindowsCallback], [ProcessMonitors], [ProcessDesktopWindows],
    [WinEventProcCallback], the two timer callbacks and the
    [WM_DISPLAYCHANGE] arm of [WndProc]).

    The Win32 calls the program makes are read from an explicit
    [Environment]; the only call with an effect on other windows,
    [SetWindowPlacement], is recorded in a call log. *)

From Stdlib Require Import ZArith Lia.
From stdpp Require Import base decidable option list vector strings.

Local Open Scope Z_scope.

(** ** The part of the Windows SDK the program uses

    The types and constants below are not declared in MonitorKeeper.cpp:
    they come with the Windows headers that MonitorKeeper.h includes, and
    have the values winuser.h gives them. *)

Module Win32.

(** A window handle; [NULL] is the null handle. *)
Definition HWND := N.
Definition NULL : HWND := 0%N.

Record POINT := { x : Z; y : Z }.
Record RECT := { left : Z; top : Z; right : Z; bottom : Z }.

Record WINDOWPLACEMENT := {
  length : Z;
  flags : Z;
  showCmd : Z;
  ptMinPosition : POINT;
  ptMaxPosition : POINT;
  rcNormalPosition : RECT
}.

(** [sizeof(WINDOWPLACEMENT)]: three UINTs, two POINTs and one RECT. *)
Definition sizeof_WINDOWPLACEMENT : Z := 44.

Definition SW_NORMAL : Z := 1.
Definition SW_SHOWMINIMIZED : Z := 2.
Definition SW_MAXIMIZE : Z := 3.
Definition SW_SHOWNOACTIVATE : Z := 4.
Definition SW_MINIMIZE : Z := 6.
Definition SW_SHOWMINNOACTIVE : Z := 7.

Definition WPF_ASYNCWINDOWPLACEMENT : Z := 4.

Definition WS_OVERLAPPEDWINDOW : Z := 0x00CF0000.
Definition WS_EX_APPWINDOW : Z := 0x00040000.
Definition WS_EX_NOACTIVATE : Z := 0x08000000.

Definition GWL_STYLE : Z := -16.
Definition GWL_EXSTYLE : Z := -20.

Definition EVENT_SYSTEM_MOVESIZEEND : Z := 0x000B.
Definition EVENT_OBJECT_LOCATIONCHANGE : Z := 0x800B.

Definition SB_PAGEUP : Z := 2.
Definition SB_PAGEDOWN : Z := 3.
Definition SB_THUMBPOSITION : Z := 4.
Definition SB_THUMBTRACK : Z := 5.
Definition SB_TOP : Z := 6.
Definition SB_BOTTOM : Z := 7.

(** [LOWORD] and [HIWORD] of a [WPARAM]. *)
Definition LOWORD (w : Z) : Z := Z.land w 0xFFFF.
Definition HIWORD (w : Z) : Z := Z.land (Z.shiftr w 16) 0xFFFF.

(** Arithmetic on [int] wraps at 32 bits. *)
Definition int32 (z : Z) : Z := (z + 2 ^ 31) mod 2 ^ 32 - 2 ^ 31.

(** Field assignments [place->f = v]. *)
Definition set_length (v : Z) (p : WINDOWPLACEMENT) : WINDOWPLACEMENT :=
  {| length := v; flags := flags p; showCmd := showCmd p;
     ptMinPosition := ptMinPosition p; ptMaxPosition := ptMaxPosition p;
     rcNormalPosition := rcNormalPosition p |}.

Definition set_flags (v : Z) (p : WINDOWPLACEMENT) : WINDOWPLACEMENT :=
  {| length := length p; flags := v; showCmd := showCmd p;
     ptMinPosition := ptMinPosition p; ptMaxPosition := ptMaxPosition p;
     rcNormalPosition := rcNormalPosition p |}.

Definition set_showCmd (v : Z) (p : WINDOWPLACEMENT) : WINDOWPLACEMENT :=
  {| length := length p; flags := flags p; showCmd := v;
     ptMinPosition := ptMinPosition p; ptMaxPosition := ptMaxPosition p;
     rcNormalPosition := rcNormalPosition p |}.

End Win32.

Abbreviation HWND := Win32.HWND.
Abbreviation NULL := Win32.NULL.
Abbreviation WINDOWPLACEMENT := Win32.WINDOWPLACEMENT.

(** ** The environment

    What the operating system answers while one callback runs.  The program
    is single threaded and every placement it applies is asynchronous
    ([WPF_ASYNCWINDOWPLACEMENT]), so the answers do not change under a
    running callback. *)

Record Environment := {
  (** [GetSystemMetrics(SM_CMONITORS)] *)
  SM_CMONITORS : Z;
  (** [IsWindow(hwnd)] *)
  IsWindow : HWND → bool;
  (** the class name of a window, as the system holds it *)
  window_class : HWND → string;
  (** the placement [GetWindowPlacement] reports, [None] when the call fails *)
  window_placement : HWND → option WINDOWPLACEMENT;
  (** [IsWindowVisible(hwnd)] *)
  IsWindowVisible : HWND → bool;
  (** [GetParent(hwnd)] *)
  GetParent : HWND → HWND;
  (** [GetWindowLong(hwnd, nIndex)] *)
  GetWindowLong : HWND → Z → Z;
  (** the windows [EnumDesktopWindows] hands to its callback, in order *)
  desktop_windows : list HWND;
  (** the indeterminate contents of the [m_windowPlacement] array of the
      record that [new SavedWindowData[n]] leaves at a given index: the
      constructor does not initialise it *)
  uninitialized : nat → vec WINDOWPLACEMENT 4
}.

(** [RealGetWindowClass(hwnd, buf, cch)] copies at most [cch - 1]
    characters of the class name into the buffer. *)
Definition RealGetWindowClass (env : Environment) (hwnd : HWND) (cch : nat)
  : string :=
  String.substring 0 (cch - 1) (window_class env hwnd).

(** [GetWindowPlacement(hwnd, lpwndpl)]: on success every field but
    [length], which the caller has set, is written. *)
Definition GetWindowPlacement (env : Environment) (hwnd : HWND)
    (lpwndpl : WINDOWPLACEMENT) : WINDOWPLACEMENT :=
  match window_placement env hwnd with
  | Some p => Win32.set_length (Win32.length lpwndpl) p
  | None => lpwndpl
  end.

(** The one call through which the program acts on other windows. *)
Inductive Call :=
  | SetWindowPlacement (hwnd : HWND) (lpwndpl : WINDOWPLACEMENT).

(** ** class SavedWindowData *)

Definition MAX_MONITORS : Z := 5.
Definition MIN_MONITORTORESTORE : Z := 2.

Record SavedWindowData := {
  m_nUnusedCount : Z;
  m_windowPlacement : vec WINDOWPLACEMENT 4;
  m_hwnd : HWND;
  m_wndClass : string
}.

(** The constructor; the array keeps whatever the memory held. *)
Definition SavedWindowData_new (mem : vec WINDOWPLACEMENT 4)
  : SavedWindowData :=
  {| m_nUnusedCount := 1; m_windowPlacement := mem;
     m_hwnd := NULL; m_wndClass := "" |}.

(** [sizeof(m_wndClass) / sizeof(TCHAR)] *)
Definition m_wndClass_size : nat := 40.

(** The index [NumMonitors - MIN_MONITORTORESTORE] into the four-element
    array.  Both methods compute it only behind their range test, where it
    is one of 0, 1, 2, 3. *)
Definition bucket (NumMonitors : Z) : fin 4 :=
  match NumMonitors - MIN_MONITORTORESTORE with
  | 0 => 0%fin
  | 1 => 1%fin
  | 2 => 2%fin
  | _ => 3%fin
  end.

(** The range test of [RestoreWindow]; [SetData] tests its negation. *)
Definition in_range (NumMonitors : Z) : bool :=
  (MIN_MONITORTORESTORE <=? NumMonitors) && (NumMonitors <=? MAX_MONITORS).

(** [self] with the array element [i] replaced. *)
Definition with_placement (self : SavedWindowData) (i : fin 4)
    (place : WINDOWPLACEMENT) : SavedWindowData :=
  {| m_hwnd := m_hwnd self;
     m_nUnusedCount := m_nUnusedCount self;
     m_wndClass := m_wndClass self;
     m_windowPlacement := vinsert i place (m_windowPlacement self) |}.

Definition SetData (env : Environment) (self : SavedWindowData)
    (hwnd : HWND) (NumMonitors : Z) : SavedWindowData * bool :=
  let self :=
    {| m_hwnd := hwnd;
       m_nUnusedCount := 0;
       m_wndClass := RealGetWindowClass env hwnd m_wndClass_size;
       m_windowPlacement := m_windowPlacement self |} in
  if (NumMonitors <? MIN_MONITORTORESTORE) || (NumMonitors >? MAX_MONITORS)
  then (self, false)
  else
    let i := bucket NumMonitors in
    let place :=
      Win32.set_length Win32.sizeof_WINDOWPLACEMENT
        (m_windowPlacement self !!! i) in
    (with_placement self i (GetWindowPlacement env hwnd place), true).

(** [RestoreWindow] returns the record as the method leaves it and the
    calls to [SetWindowPlacement] it made, oldest first.  [lstrcmp] is taken
    as equality of the two buffers. *)
Definition RestoreWindow (env : Environment) (self : SavedWindowData)
    (NumMonitors : Z) : SavedWindowData * list Call :=
  if in_range NumMonitors then
    let i := bucket NumMonitors in
    if IsWindow env (m_hwnd self) &&
       (Win32.length (m_windowPlacement self !!! i)
          =? Win32.sizeof_WINDOWPLACEMENT)
    then
      let szTempClass :=
        RealGetWindowClass env (m_hwnd self) m_wndClass_size in
      if String.eqb szTempClass (m_wndClass self) then
        let place :=
          Win32.set_flags Win32.WPF_ASYNCWINDOWPLACEMENT
            (m_windowPlacement self !!! i) in
        if Win32.showCmd place =? Win32.SW_MAXIMIZE then
          let shown := Win32.set_showCmd Win32.SW_SHOWNOACTIVATE place in
          let place := Win32.set_showCmd Win32.SW_MAXIMIZE shown in
          (with_placement self i place,
           [SetWindowPlacement (m_hwnd self) shown;
            SetWindowPlacement (m_hwnd self) place])
        else if (Win32.showCmd place =? Win32.SW_MINIMIZE)
                || (Win32.showCmd place =? Win32.SW_SHOWMINIMIZED) then
          let place := Win32.set_showCmd Win32.SW_SHOWMINNOACTIVE place in
          (with_placement self i place,
           [SetWindowPlacement (m_hwnd self) place])
        else if Win32.showCmd place =? Win32.SW_NORMAL then
          let place := Win32.set_showCmd Win32.SW_SHOWNOACTIVATE place in
          (with_placement self i place,
           [SetWindowPlacement (m_hwnd self) place])
        else
          (with_placement self i place,
           [SetWindowPlacement (m_hwnd self) place])
      else (self, [])
    else (self, [])
  else (self, []).

(** ** class InstanceData

    [_WindowData] is the array and [_WindowDataLength] its length: the two
    are only ever set together, so the model keeps the list and reads the
    length off it. *)

Record InstanceData := {
  _WindowData : list SavedWindowData;
  _NumMonitors : Z;
  InChangingState : bool
}.

Definition _WindowDataLength (g : InstanceData) : nat :=
  length (_WindowData g).

(** The constructor: 32 fresh records, one monitor, no change under way. *)
Definition InstanceData_new (env : Environment) : InstanceData :=
  {| _WindowData :=
       (λ i, SavedWindowData_new (uninitialized env i)) <$> seq 0 32;
     _NumMonitors := 1;
     InChangingState := false |}.

Definition with_WindowData (g : InstanceData) (d : list SavedWindowData)
  : InstanceData :=
  {| _WindowData := d; _NumMonitors := _NumMonitors g;
     InChangingState := InChangingState g |}.

(** The body of the loop of [TagWindowsUnused]. *)
Definition tag_unused (w : SavedWindowData) : SavedWindowData :=
  if bool_decide (m_hwnd w ≠ NULL) && (m_nUnusedCount w <? 100) then
    {| m_nUnusedCount := m_nUnusedCount w + 1;
       m_windowPlacement := m_windowPlacement w;
       m_hwnd := m_hwnd w; m_wndClass := m_wndClass w |}
  else w.

Definition TagWindowsUnused (d : list SavedWindowData)
  : list SavedWindowData :=
  tag_unused <$> d.

(** The loop of [RestoreWindowPositions], from index 0 upwards. *)
Fixpoint RestoreWindowPositions (env : Environment) (monitors : Z)
    (d : list SavedWindowData) : list SavedWindowData * list Call :=
  match d with
  | [] => ([], [])
  | w :: d =>
      let '(w', calls) :=
        if bool_decide (m_hwnd w ≠ NULL) && (m_nUnusedCount w <=? 2)
        then RestoreWindow env w monitors
        else (w, []) in
      let '(d', calls') := RestoreWindowPositions env monitors d in
      (w' :: d', calls ++ calls')
  end.

(** The test of the second loop of [FindWindowSlot]. *)
Definition unused (w : SavedWindowData) : Prop :=
  m_hwnd w = NULL ∨ 2 < m_nUnusedCount w.

#[global] Instance unused_dec w : Decision (unused w).
Proof. unfold unused. apply _. Defined.

(** [FindWindowSlot] returns the array as the call leaves it and the index
    of the slot whose address it returns. *)
Definition FindWindowSlot (env : Environment) (d : list SavedWindowData)
    (hwnd : HWND) : list SavedWindowData * nat :=
  match list_find (λ w, m_hwnd w = hwnd) d with
  | Some (i, _) => (d, i)
  | None =>
      match list_find unused d with
      | Some (i, _) => (d, i)
      | None =>
          let newlength := (length d + 32)%nat in
          let newdata :=
            (λ i, SavedWindowData_new (uninitialized env i))
              <$> seq 0 newlength in
          (* newdata[i] = _WindowData[i] for i < _WindowDataLength *)
          let newdata := d ++ drop (length d) newdata in
          (newdata, length d)
      end
  end.

(** ** The callbacks *)

(** The filter of [SaveWindowsCallback]. *)
Definition tracked (env : Environment) (hwnd : HWND) : bool :=
  IsWindowVisible env hwnd && bool_decide (GetParent env hwnd = NULL) &&
  (let dwStyle := GetWindowLong env hwnd Win32.GWL_STYLE in
   let dwExStyle := GetWindowLong env hwnd Win32.GWL_EXSTYLE in
   (negb (Z.land dwStyle Win32.WS_OVERLAPPEDWINDOW =? 0)
    || negb (Z.land dwExStyle Win32.WS_EX_APPWINDOW =? 0))
   && (Z.land dwExStyle Win32.WS_EX_NOACTIVATE =? 0)).

Definition SaveWindowsCallback (env : Environment)
    (d : list SavedWindowData) (hwnd : HWND) (monitors : Z)
  : list SavedWindowData :=
  if tracked env hwnd then
    let '(d, i) := FindWindowSlot env d hwnd in
    match d !! i with
    | Some pData => <[i := (SetData env pData hwnd monitors).1]> d
    | None => d
    end
  else d.

(** [EnumDesktopWindows(NULL, SaveWindowsCallback, monitors)] *)
Definition EnumDesktopWindows (env : Environment)
    (d : list SavedWindowData) (monitors : Z) : list SavedWindowData :=
  foldl (λ d hwnd, SaveWindowsCallback env d hwnd monitors)
        d (desktop_windows env).

Definition ProcessMonitors (env : Environment) (g : InstanceData)
  : InstanceData * list Call :=
  let monitors := SM_CMONITORS env in
  let '(d, calls) :=
    if (monitors >? 1) && bool_decide (_NumMonitors g ≠ monitors)
    then RestoreWindowPositions env monitors (_WindowData g)
    else (_WindowData g, []) in
  ({| _WindowData := d; _NumMonitors := monitors;
      InChangingState := false |}, calls).

Definition ProcessDesktopWindows (env : Environment) (g : InstanceData)
  : InstanceData :=
  let monitors := SM_CMONITORS env in
  if bool_decide (monitors ≠ _NumMonitors g) then g
  else
    with_WindowData g
      (EnumDesktopWindows env (TagWindowsUnused (_WindowData g)) monitors).

(** ** The message loop

    The application is the global instance and the two timers it arms on
    its main window: timer 2 runs [SaveTimerCallback], timer 99 runs
    [TimerCallback].  [SetTimer] on an armed timer replaces it, and each
    callback kills its timer. *)

Record App := {
  g_Instance : InstanceData;
  timer_2 : bool;
  timer_99 : bool
}.

Definition WinEventProcCallback (app : App) (dwEvent : Z) (hwnd : HWND)
  : App :=
  if InChangingState (g_Instance app) then app
  else if bool_decide (hwnd ≠ NULL) &&
          ((dwEvent =? Win32.EVENT_SYSTEM_MOVESIZEEND)
           || (dwEvent =? Win32.EVENT_OBJECT_LOCATIONCHANGE))
  then {| g_Instance := g_Instance app; timer_2 := true;
          timer_99 := timer_99 app |}
  else app.

Definition SaveTimerCallback (env : Environment) (app : App) : App :=
  {| g_Instance := ProcessDesktopWindows env (g_Instance app);
     timer_2 := false; timer_99 := timer_99 app |}.

Definition TimerCallback (env : Environment) (app : App)
  : App * list Call :=
  let '(g, calls) := ProcessMonitors env (g_Instance app) in
  ({| g_Instance := g; timer_2 := timer_2 app; timer_99 := false |}, calls).

(** The [WM_DISPLAYCHANGE] arm of [WndProc]. *)
Definition WndProc_WM_DISPLAYCHANGE (app : App) : App :=
  {| g_Instance :=
       {| _WindowData := _WindowData (g_Instance app);
          _NumMonitors := _NumMonitors (g_Instance app);
          InChangingState := true |};
     timer_2 := timer_2 app; timer_99 := true |}.

(** [InitInstance]: a first sweep, then the monitor count is read and the
    hook installed. *)
Definition InitInstance (env : Environment) : App :=
  let g := ProcessDesktopWindows env (InstanceData_new env) in
  {| g_Instance :=
       {| _WindowData := _WindowData g; _NumMonitors := SM_CMONITORS env;
          InChangingState := InChangingState g |};
     timer_2 := false; timer_99 := false |}.

(** What the message loop delivers.  A timer message is only delivered for
    an armed timer. *)
Inductive Event :=
  | WM_DISPLAYCHANGE
  | WinEvent (dwEvent : Z) (hwnd : HWND)
  | WM_TIMER_2
  | WM_TIMER_99.

Definition dispatch (env : Environment) (app : App) (e : Event)
  : App * list Call :=
  match e with
  | WM_DISPLAYCHANGE => (WndProc_WM_DISPLAYCHANGE app, [])
  | WinEvent dwEvent hwnd => (WinEventProcCallback app dwEvent hwnd, [])
  | WM_TIMER_2 =>
      if timer_2 app then (SaveTimerCallback env app, []) else (app, [])
  | WM_TIMER_99 =>
      if timer_99 app then TimerCallback env app else (app, [])
  end.

(** A run: each event comes with the environment it is handled in. *)
Fixpoint run (app : App) (es : list (Environment * Event))
  : App * list Call :=
  match es with
  | [] => (app, [])
  | (env, e) :: es =>
      let '(app, calls) := dispatch env app e in
      let '(app, calls') := run app es in
      (app, calls ++ calls')
  end.

(** ** The debug log and the scroll bar

    [LogMessage] has a body only in a debug build; [_LogInfo] is the
    string held in its buffer of [LOGBUFFERSIZE] characters.  [lstrcpy]
    writes [str] and its terminator from offset [len] on. *)

Definition LOGBUFFERSIZE : nat := 32 * 1024.

Definition LogMessage (_LogInfo str : string) : string :=
  let len := String.length _LogInfo in
  let newlen := String.length str in
  let len := if (LOGBUFFERSIZE <=? len + newlen)%nat then 0%nat else len in
  String.substring 0 len _LogInfo +:+ str.

(** The [WM_VSCROLL] arm of [WndProc], given what [GetScrollPos] answers:
    the position handed to [SetScrollPos], or [None] when the arm leaves
    through its [break] without setting one. *)
Definition WndProc_WM_VSCROLL (GetScrollPos : Z) (wParam : Z) : option Z :=
  let cmd := Win32.LOWORD wParam in
  let pos := GetScrollPos in
  let moved :=
    if cmd =? Win32.SB_BOTTOM then Some 10000
    else if cmd =? Win32.SB_TOP then Some (Win32.int32 (pos + 0))
    else if cmd =? Win32.SB_PAGEDOWN then Some (Win32.int32 (pos + 1000))
    else if cmd =? Win32.SB_PAGEUP then Some (Win32.int32 (pos - 1000))
    else if cmd =? Win32.SB_THUMBPOSITION then Some (Win32.HIWORD wParam)
    else if cmd =? Win32.SB_THUMBTRACK then Some (Win32.HIWORD wParam)
    else None in
  match moved with
  | None => None
  | Some pos =>
      let pos := if pos <? 0 then 0 else pos in
      let pos := if pos >? 10000 then 10000 else pos in
      Some pos
  end.

(** ** Vocabulary of the statements *)

(** What a call of [RestoreWindow] did, read off its calls: the method
    itself returns nothing. *)
Inductive RestoreResult := applied | skipped.

Definition restore_result (r : SavedWindowData * list Call)
  : RestoreResult :=
  match r.2 with
  | [] => skipped
  | _ :: _ => applied
  end.

(** What [SetData] does before its range test. *)
Definition observed (env : Environment) (self : SavedWindowData)
    (hwnd : HWND) : SavedWindowData :=
  {| m_hwnd := hwnd;
     m_nUnusedCount := 0;
     m_wndClass := RealGetWindowClass env hwnd m_wndClass_size;
     m_windowPlacement := m_windowPlacement self |}.

(** The three tests [RestoreWindow] makes before it touches anything. *)
Definition restorable (env : Environment) (self : SavedWindowData)
    (NumMonitors : Z) : Prop :=
  in_range NumMonitors = true
  ∧ IsWindow env (m_hwnd self) = true
  ∧ Win32.length (m_windowPlacement self !!! bucket NumMonitors)
    = Win32.sizeof_WINDOWPLACEMENT
  ∧ RealGetWindowClass env (m_hwnd self) m_wndClass_size = m_wndClass self.

(** The show command [RestoreWindow] leaves in the array element. *)
Definition stored_showCmd (showCmd : Z) : Z :=
  if showCmd =? Win32.SW_MAXIMIZE then Win32.SW_MAXIMIZE
  else if (showCmd =? Win32.SW_MINIMIZE)
          || (showCmd =? Win32.SW_SHOWMINIMIZED)
  then Win32.SW_SHOWMINNOACTIVE
  else if showCmd =? Win32.SW_NORMAL then Win32.SW_SHOWNOACTIVATE
  else showCmd.

(** The unused count after [k] passes, in closed form. *)
Definition tagged_count (k : nat) (w : SavedWindowData) : Z :=
  if decide (m_hwnd w = NULL) then m_nUnusedCount w
  else Z.max (m_nUnusedCount w) (Z.min 100 (m_nUnusedCount w + Z.of_nat k)).



(** The record is one [RestoreWindowPositions] acts on. *)
Definition live (w : SavedWindowData) : Prop :=
  m_hwnd w ≠ NULL ∧ m_nUnusedCount w ≤ 2.

(** No window handle has two records. *)
Definition unique_handles (d : list SavedWindowData) : Prop :=
  ∀ i j v w, d !! i = Some v → d !! j = Some w →
    m_hwnd v = m_hwnd w → m_hwnd v ≠ NULL → i = j.

(** Every unused count is between 0 and 100. *)
Definition counts_bounded (d : list SavedWindowData) : Prop :=
  Forall (λ w, 0 ≤ m_nUnusedCount w ≤ 100) d.

(** The application after the events [es], started in [env0]. *)
Definition after (env0 : Environment) (es : list (Environment * Event))
  : App :=
  (run (InitInstance env0) es).1.

(** The body of the loop of [RestoreWindowPositions]. *)
Definition restore_one (env : Environment) (monitors : Z)
    (w : SavedWindowData) : SavedWindowData * list Call :=
  if bool_decide (m_hwnd w ≠ NULL) && (m_nUnusedCount w <=? 2)
  then RestoreWindow env w monitors
  else (w, []).

(** Two placements that differ at most in [flags] and [showCmd]. *)
Definition same_geometry (p q : WINDOWPLACEMENT) : Prop :=
  Win32.length p = Win32.length q
  ∧ Win32.ptMinPosition p = Win32.ptMinPosition q
  ∧ Win32.ptMaxPosition p = Win32.ptMaxPosition q
  ∧ Win32.rcNormalPosition p = Win32.rcNormalPosition q.

(** The array [d] has a record for the window [h] as a sweep for
    [monitors] monitors leaves it: seen, with the class the window reports
    and, for a monitor count between 2 and 5, with the placement the
    window reports in the element of that count. *)
Definition holds_window (env : Environment) (monitors : Z) (h : HWND)
    (d : list SavedWindowData) : Prop :=
  ∃ i w, d !! i = Some w
    ∧ m_hwnd w = h
    ∧ m_nUnusedCount w = 0
    ∧ m_wndClass w = RealGetWindowClass env h m_wndClass_size
    ∧ (in_range monitors = true →
       ∀ p, window_placement env h = Some p →
         m_windowPlacement w !!! bucket monitors
         = Win32.set_length Win32.sizeof_WINDOWPLACEMENT p).

(** ** Concrete data for the examples *)

Module Sample.

Definition rect (l t r b : Z) : Win32.RECT :=
  {| Win32.left := l; Win32.top := t; Win32.right := r; Win32.bottom := b |}.

Definition origin : Win32.POINT := {| Win32.x := 0; Win32.y := 0 |}.

(** A placement as [GetWindowPlacement] reports it. *)
Definition placement (show : Z) (rc : Win32.RECT) : WINDOWPLACEMENT :=
  {| Win32.length := Win32.sizeof_WINDOWPLACEMENT; Win32.flags := 0;
     Win32.showCmd := show; Win32.ptMinPosition := origin;
     Win32.ptMaxPosition := origin; Win32.rcNormalPosition := rc |}.

(** Zeroed memory. *)
Definition zeroed : WINDOWPLACEMENT :=
  {| Win32.length := 0; Win32.flags := 0; Win32.showCmd := 0;
     Win32.ptMinPosition := origin; Win32.ptMaxPosition := origin;
     Win32.rcNormalPosition := rect 0 0 0 0 |}.

Definition zeroed4 : vec WINDOWPLACEMENT 4 := vreplicate 4 zeroed.

Definition notepad : HWND := 0x10%N.
Definition calc : HWND := 0x20%N.

(** A desktop with [monitors] monitors on which the windows of [ws], each
    given with class name and placement, are the visible top-level
    overlapped windows. *)
Definition desktop (monitors : Z)
    (ws : list (HWND * (string * WINDOWPLACEMENT))) : Environment :=
  let find h := snd <$> list_find (λ e, e.1 = h) ws in
  {| SM_CMONITORS := monitors;
     IsWindow := λ h, bool_decide (is_Some (find h));
     window_class := λ h, from_option (λ e, e.2.1) "" (find h);
     window_placement := λ h, (λ e, e.2.2) <$> find h;
     IsWindowVisible := λ h, bool_decide (is_Some (find h));
     GetParent := λ _, NULL;
     GetWindowLong := λ _ i,
       if i =? Win32.GWL_STYLE then Win32.WS_OVERLAPPEDWINDOW else 0;
     desktop_windows := ws.*1;
     uninitialized := λ _, zeroed4 |}.

Definition record (h : HWND) (cls : string) (stale : Z)
    (p2 p3 p4 p5 : WINDOWPLACEMENT) : SavedWindowData :=
  {| m_nUnusedCount := stale; m_windowPlacement := [# p2; p3; p4; p5];
     m_hwnd := h; m_wndClass := cls |}.

(** A session: Notepad is tracked with two monitors, a third monitor is
    plugged in, then unplugged again. *)
Definition two_monitors : Environment :=
  desktop 2 [(notepad, ("Notepad", placement 1 (rect 100 100 740 580)))].

Definition three_monitors : Environment :=
  desktop 3 [(notepad, ("Notepad", placement 1 (rect 100 100 740 580)))].

Definition before_unplug : App :=
  (run (InitInstance two_monitors)
     [(two_monitors, WinEvent Win32.EVENT_OBJECT_LOCATIONCHANGE notepad);
      (two_monitors, WM_TIMER_2);
      (three_monitors, WM_DISPLAYCHANGE);
      (three_monitors, WM_TIMER_99)]).1.

(** A session: Notepad is tracked with three monitors and closed; three
    sweeps later Calculator opens, with two monitors left; then the
    third monitor comes back. *)
Definition notepad_on_third : Environment :=
  desktop 3 [(notepad, ("Notepad", placement 1 (rect 4000 50 4640 530)))].

Definition empty_desktop : Environment := desktop 3 [].

Definition calc_opens : Environment :=
  desktop 2 [(calc, ("CalcFrame", placement 1 (rect 30 30 350 510)))].

Definition calc_on_three : Environment :=
  desktop 3 [(calc, ("CalcFrame", placement 1 (rect 30 30 350 510)))].

Definition sweep (env : Environment) (h : HWND)
  : list (Environment * Event) :=
  [(env, WinEvent Win32.EVENT_OBJECT_LOCATIONCHANGE h); (env, WM_TIMER_2)].

Definition display_change (env : Environment)
  : list (Environment * Event) :=
  [(env, WM_DISPLAYCHANGE); (env, WM_TIMER_99)].

Definition reuse_session : list (Environment * Event) :=
  sweep notepad_on_third notepad
  ++ sweep empty_desktop notepad
  ++ sweep empty_desktop notepad
  ++ sweep empty_desktop notepad
  ++ display_change calc_opens
  ++ sweep calc_opens calc
  ++ display_change calc_on_three.





End Sample.

(** * Properties *)

(** ** The range test *)

Lemma in_range_spec n : in_range n = true ↔ 2 ≤ n ≤ 5.
Proof. unfold in_range, MIN_MONITORTORESTORE, MAX_MONITORS. lia. Qed.

Lemma SetData_guard n :
  (n <? MIN_MONITORTORESTORE) || (n >? MAX_MONITORS) = negb (in_range n).
Proof. unfold in_range, MIN_MONITORTORESTORE, MAX_MONITORS. lia. Qed.

Lemma bucket_inj n m :
  in_range n = true → in_range m = true → bucket n = bucket m → n = m.
Proof.
  rewrite !in_range_spec. intros Hn Hm.
  assert (n = 2 ∨ n = 3 ∨ n = 4 ∨ n = 5) as Hn' by lia.
  assert (m = 2 ∨ m = 3 ∨ m = 4 ∨ m = 5) as Hm' by lia.
  destruct Hn' as [->|[->|[->| ->]]], Hm' as [->|[->|[->| ->]]];
    cbn; intros; done.
Qed.

(** ** SavedWindowData::SetData *)

Lemma SetData_out_of_range env self hwnd n :
  in_range n = false → SetData env self hwnd n = (observed env self hwnd, false).
Proof. intros H. unfold SetData. by rewrite SetData_guard, H. Qed.

Lemma SetData_in_range env self hwnd n :
  in_range n = true →
  SetData env self hwnd n =
    (with_placement (observed env self hwnd) (bucket n)
       (GetWindowPlacement env hwnd
          (Win32.set_length Win32.sizeof_WINDOWPLACEMENT
             (m_windowPlacement self !!! bucket n))), true).
Proof. intros H. unfold SetData. by rewrite SetData_guard, H. Qed.

(** [SetData] writes no array element but the one of its monitor count. *)
Lemma SetData_other_buckets env self hwnd n (b : fin 4) :
  in_range n = false ∨ b ≠ bucket n →
  m_windowPlacement (SetData env self hwnd n).1 !!! b
  = m_windowPlacement self !!! b.
Proof.
  intros H. destruct (in_range n) eqn:Hn.
  - destruct H as [?|H]; [done|].
    rewrite SetData_in_range by done. cbn. by rewrite vlookup_insert_ne.
  - by rewrite SetData_out_of_range.
Qed.

Lemma SetData_identity env self hwnd n :
  m_hwnd (SetData env self hwnd n).1 = hwnd
  ∧ m_nUnusedCount (SetData env self hwnd n).1 = 0
  ∧ m_wndClass (SetData env self hwnd n).1
    = RealGetWindowClass env hwnd m_wndClass_size.
Proof.
  destruct (in_range n) eqn:Hn.
  - by rewrite SetData_in_range.
  - by rewrite SetData_out_of_range.
Qed.

(** C2, as stated, fails: with one monitor, [SetData] on a fresh record
    reports [false] but has already stored the handle, reset the unused
    count and copied the class name. *)
Lemma SetData_out_of_range_not_noop :
  let env := Sample.desktop 1
               [(Sample.notepad,
                 ("Notepad", Sample.placement 1 (Sample.rect 0 0 640 480)))] in
  let self := SavedWindowData_new Sample.zeroed4 in
  in_range 1 = false
  ∧ (SetData env self Sample.notepad 1).2 = false
  ∧ (SetData env self Sample.notepad 1).1 ≠ self
  ∧ m_hwnd self = NULL
  ∧ m_hwnd (SetData env self Sample.notepad 1).1 = Sample.notepad
  ∧ m_nUnusedCount self = 1
  ∧ m_nUnusedCount (SetData env self Sample.notepad 1).1 = 0
  ∧ m_wndClass self = ""
  ∧ m_wndClass (SetData env self Sample.notepad 1).1 = "Notepad".
Proof.
  cbv zeta. repeat split; try reflexivity.
  intros H. apply (f_equal m_nUnusedCount) in H. vm_compute in H.
  discriminate H.
Qed.

(** C2, amended: for a monitor count outside [2,5] (1 and 6 included),
    [SetData] reports [false] and leaves every element of
    [m_windowPlacement] unchanged; it does set [m_hwnd] to the handle,
    [m_nUnusedCount] to 0 and [m_wndClass] to the class the handle
    reports. *)
Theorem SetData_out_of_range_keeps_snapshots env self hwnd n :
  n < 2 ∨ 5 < n →
  (SetData env self hwnd n).2 = false
  ∧ m_windowPlacement (SetData env self hwnd n).1 = m_windowPlacement self
  ∧ m_hwnd (SetData env self hwnd n).1 = hwnd
  ∧ m_nUnusedCount (SetData env self hwnd n).1 = 0
  ∧ m_wndClass (SetData env self hwnd n).1
    = RealGetWindowClass env hwnd m_wndClass_size.
Proof.
  intros Hn.
  assert (in_range n = false) as Hr.
  { apply not_true_is_false. rewrite in_range_spec. lia. }
  by rewrite SetData_out_of_range.
Qed.

Lemma SetData_out_of_range_keeps_snapshots_witness :
  let env := Sample.desktop 6
               [(Sample.calc,
                 ("CalcFrame", Sample.placement 3 (Sample.rect 0 0 800 600)))] in
  let self := Sample.record Sample.notepad "Notepad" 2
                (Sample.placement 1 (Sample.rect 10 10 650 490))
                Sample.zeroed Sample.zeroed Sample.zeroed in
  (SetData env self Sample.calc 6).2 = false
  ∧ m_windowPlacement (SetData env self Sample.calc 6).1
    = m_windowPlacement self
  ∧ m_hwnd (SetData env self Sample.calc 6).1 = Sample.calc
  ∧ m_nUnusedCount (SetData env self Sample.calc 6).1 = 0
  ∧ m_wndClass (SetData env self Sample.calc 6).1
    = RealGetWindowClass env Sample.calc m_wndClass_size.
Proof.
  intros env self.
  apply (SetData_out_of_range_keeps_snapshots env self Sample.calc 6).
  right. lia.
Defined.

(** ** SavedWindowData::RestoreWindow *)

Lemma RestoreWindow_class_mismatch env self n :
  RealGetWindowClass env (m_hwnd self) m_wndClass_size ≠ m_wndClass self →
  RestoreWindow env self n = (self, []).
Proof.
  intros Hne. unfold RestoreWindow.
  destruct (in_range n); [|done].
  destruct (_ && _); [|done].
  destruct (String.eqb_spec
              (RealGetWindowClass env (m_hwnd self) m_wndClass_size)
              (m_wndClass self)); done.
Qed.

(** Past its tests, [RestoreWindow] is a case analysis on the saved show
    command. *)
Lemma RestoreWindow_restorable env self n :
  restorable env self n →
  let place :=
    Win32.set_flags Win32.WPF_ASYNCWINDOWPLACEMENT
      (m_windowPlacement self !!! bucket n) in
  let final :=
    Win32.set_showCmd (stored_showCmd (Win32.showCmd place)) place in
  RestoreWindow env self n =
    (with_placement self (bucket n) final,
     if Win32.showCmd place =? Win32.SW_MAXIMIZE
     then [SetWindowPlacement (m_hwnd self)
             (Win32.set_showCmd Win32.SW_SHOWNOACTIVATE place);
           SetWindowPlacement (m_hwnd self) final]
     else [SetWindowPlacement (m_hwnd self) final]).
Proof.
  intros (Hn & Hw & Hl & Hc) place final. unfold RestoreWindow.
  rewrite Hn, Hw, Hl, Z.eqb_refl, Hc, String.eqb_refl. cbn [andb].
  fold place. subst final. unfold stored_showCmd.
  destruct (Win32.showCmd place =? Win32.SW_MAXIMIZE) eqn:Hmax.
  { done. }
  destruct ((Win32.showCmd place =? Win32.SW_MINIMIZE)
            || (Win32.showCmd place =? Win32.SW_SHOWMINIMIZED)); [done|].
  destruct (Win32.showCmd place =? Win32.SW_NORMAL); [done|].
  by destruct place.
Qed.

(** C5: when the class name the handle reports now differs from the stored
    [m_wndClass], [RestoreWindow] is skipped: it makes no call to
    [SetWindowPlacement] and leaves the record as it was, for every monitor
    count. *)
Theorem RestoreWindow_skips_recycled_handle env self n :
  m_wndClass self ≠ RealGetWindowClass env (m_hwnd self) m_wndClass_size →
  restore_result (RestoreWindow env self n) = skipped
  ∧ (RestoreWindow env self n).2 = []
  ∧ (RestoreWindow env self n).1 = self.
Proof.
  intros Hne. by rewrite RestoreWindow_class_mismatch.
Qed.

Lemma RestoreWindow_skips_recycled_handle_witness :
  let env := Sample.desktop 2
               [(Sample.notepad,
                 ("Calculator", Sample.placement 1 (Sample.rect 5 5 300 400)))] in
  let self := Sample.record Sample.notepad "Notepad" 0
                (Sample.placement 1 (Sample.rect 1000 100 1640 580))
                Sample.zeroed Sample.zeroed Sample.zeroed in
  restore_result (RestoreWindow env self 2) = skipped
  ∧ (RestoreWindow env self 2).2 = []
  ∧ (RestoreWindow env self 2).1 = self.
Proof.
  intros env self.
  apply (RestoreWindow_skips_recycled_handle env self 2).
  vm_compute. discriminate.
Defined.

(** C6: when the tests of [RestoreWindow] pass and the saved element has
    rectangle R, a saved SW_MAXIMIZE gives exactly two calls, first
    SW_SHOWNOACTIVATE with R, then SW_MAXIMIZE with R; a saved SW_MINIMIZE
    or SW_SHOWMINIMIZED gives one call with SW_SHOWMINNOACTIVE; a saved
    SW_NORMAL gives one call with SW_SHOWNOACTIVATE.  Every call is on
    [m_hwnd], carries the saved rectangle and points and the flag
    WPF_ASYNCWINDOWPLACEMENT. *)
Theorem RestoreWindow_calls env self n :
  restorable env self n →
  let saved := m_windowPlacement self !!! bucket n in
  let apply_as show :=
    SetWindowPlacement (m_hwnd self)
      {| Win32.length := Win32.sizeof_WINDOWPLACEMENT;
         Win32.flags := Win32.WPF_ASYNCWINDOWPLACEMENT;
         Win32.showCmd := show;
         Win32.ptMinPosition := Win32.ptMinPosition saved;
         Win32.ptMaxPosition := Win32.ptMaxPosition saved;
         Win32.rcNormalPosition := Win32.rcNormalPosition saved |} in
  (Win32.showCmd saved = Win32.SW_MAXIMIZE →
   (RestoreWindow env self n).2
   = [apply_as Win32.SW_SHOWNOACTIVATE; apply_as Win32.SW_MAXIMIZE])
  ∧ (Win32.showCmd saved = Win32.SW_MINIMIZE
     ∨ Win32.showCmd saved = Win32.SW_SHOWMINIMIZED →
     (RestoreWindow env self n).2 = [apply_as Win32.SW_SHOWMINNOACTIVE])
  ∧ (Win32.showCmd saved = Win32.SW_NORMAL →
     (RestoreWindow env self n).2 = [apply_as Win32.SW_SHOWNOACTIVATE]).
Proof.
  intros Hr saved apply_as.
  rewrite (RestoreWindow_restorable _ _ _ Hr). fold saved.
  destruct Hr as (_ & _ & Hl & _). fold saved in Hl.
  subst apply_as. cbn [snd Win32.set_flags Win32.showCmd].
  unfold stored_showCmd, Win32.set_showCmd. cbn. rewrite <- Hl.
  repeat split.
  - by intros ->.
  - by intros [-> | ->].
  - by intros ->.
Qed.

Lemma RestoreWindow_calls_witness :
  let env := Sample.desktop 3
               [(Sample.notepad,
                 ("Notepad", Sample.placement 1 (Sample.rect 0 0 640 480)))] in
  let R := Sample.rect 2000 50 2800 650 in
  let self := Sample.record Sample.notepad "Notepad" 0
                Sample.zeroed (Sample.placement 3 R)
                Sample.zeroed Sample.zeroed in
  let apply_as show :=
    SetWindowPlacement Sample.notepad
      {| Win32.length := 44; Win32.flags := 4; Win32.showCmd := show;
         Win32.ptMinPosition := Sample.origin;
         Win32.ptMaxPosition := Sample.origin;
         Win32.rcNormalPosition := R |} in
  restorable env self 3
  ∧ (RestoreWindow env self 3).2 = [apply_as 4; apply_as 3].
Proof.
  intros env R self apply_as.
  assert (restorable env self 3) as Hr by (repeat split; reflexivity).
  split; [exact Hr|].
  exact (proj1 (RestoreWindow_calls env self 3 Hr) eq_refl).
Defined.

(** C9: [RestoreWindow] works on the stored array element, not on a copy.
    When its tests pass, the element is left with [flags] equal to
    WPF_ASYNCWINDOWPLACEMENT and with the rewritten show command: a saved
    SW_MINIMIZE or SW_SHOWMINIMIZED is left as SW_SHOWMINNOACTIVE and a
    saved SW_NORMAL as SW_SHOWNOACTIVATE, both different from what was
    saved (a saved SW_MAXIMIZE is put back).  Nothing else in the record
    changes.  The next [SetData] for the same monitor count on a window
    whose placement can be read replaces the element by that placement. *)
Theorem RestoreWindow_rewrites_stored_snapshot env self n :
  restorable env self n →
  let saved := m_windowPlacement self !!! bucket n in
  let self' := (RestoreWindow env self n).1 in
  let left := m_windowPlacement self' !!! bucket n in
  Win32.flags left = Win32.WPF_ASYNCWINDOWPLACEMENT
  ∧ Win32.showCmd left = stored_showCmd (Win32.showCmd saved)
  ∧ (Win32.showCmd saved = Win32.SW_MINIMIZE
     ∨ Win32.showCmd saved = Win32.SW_SHOWMINIMIZED →
     Win32.showCmd left = Win32.SW_SHOWMINNOACTIVE
     ∧ Win32.showCmd left ≠ Win32.showCmd saved)
  ∧ (Win32.showCmd saved = Win32.SW_NORMAL →
     Win32.showCmd left = Win32.SW_SHOWNOACTIVATE
     ∧ Win32.showCmd left ≠ Win32.showCmd saved)
  ∧ (Win32.showCmd saved = Win32.SW_MAXIMIZE →
     Win32.showCmd left = Win32.SW_MAXIMIZE)
  ∧ left = Win32.set_showCmd (Win32.showCmd left)
             (Win32.set_flags Win32.WPF_ASYNCWINDOWPLACEMENT saved)
  ∧ (∀ b, b ≠ bucket n →
       m_windowPlacement self' !!! b = m_windowPlacement self !!! b)
  ∧ m_hwnd self' = m_hwnd self
  ∧ m_nUnusedCount self' = m_nUnusedCount self
  ∧ m_wndClass self' = m_wndClass self
  ∧ (∀ env' hwnd p,
       window_placement env' hwnd = Some p →
       m_windowPlacement (SetData env' self' hwnd n).1 !!! bucket n
       = Win32.set_length Win32.sizeof_WINDOWPLACEMENT p).
Proof.
  intros Hr saved self' left.
  pose proof (RestoreWindow_restorable _ _ _ Hr) as E. cbv zeta in E.
  fold saved in E.
  assert (self' = with_placement self (bucket n)
            (Win32.set_showCmd (stored_showCmd (Win32.showCmd saved))
               (Win32.set_flags Win32.WPF_ASYNCWINDOWPLACEMENT saved)))
    as Hself by (subst self'; by rewrite E).
  assert (left = Win32.set_showCmd (stored_showCmd (Win32.showCmd saved))
                   (Win32.set_flags Win32.WPF_ASYNCWINDOWPLACEMENT saved))
    as Hleft.
  { subst left. rewrite Hself. cbn. apply vlookup_insert. }
  clearbody self' left. subst self' left. cbn.
  split_and!; try done.
  - intros [-> | ->]; by vm_compute.
  - intros ->; by vm_compute.
  - intros ->; by vm_compute.
  - intros b Hb. by rewrite vlookup_insert_ne.
  - intros env' hwnd p Hp. destruct Hr as (Hn & _).
    rewrite SetData_in_range by done. cbn. rewrite vlookup_insert.
    unfold GetWindowPlacement. by rewrite Hp.
Qed.

Lemma RestoreWindow_rewrites_stored_snapshot_witness :
  let env := Sample.desktop 2
               [(Sample.calc,
                 ("CalcFrame", Sample.placement 1 (Sample.rect 0 0 320 480)))] in
  let self := Sample.record Sample.calc "CalcFrame" 1
                (Sample.placement 2 (Sample.rect 1900 0 2220 480))
                Sample.zeroed Sample.zeroed Sample.zeroed in
  restorable env self 2
  ∧ Win32.showCmd (m_windowPlacement self !!! bucket 2) = 2
  ∧ Win32.showCmd (m_windowPlacement (RestoreWindow env self 2).1 !!! bucket 2)
    = 7
  ∧ Win32.flags (m_windowPlacement (RestoreWindow env self 2).1 !!! bucket 2)
    = 4.
Proof.
  intros env self.
  assert (restorable env self 2) as Hr by (repeat split; reflexivity).
  pose proof (RestoreWindow_rewrites_stored_snapshot env self 2 Hr)
    as (Hf & _ & Hmin & _).
  split; [exact Hr|]. split; [reflexivity|].
  split; [|exact Hf].
  exact (proj1 (Hmin (or_intror eq_refl))).
Defined.

(** ** InstanceData::TagWindowsUnused *)

Lemma tag_unused_frame w :
  m_hwnd (tag_unused w) = m_hwnd w
  ∧ m_wndClass (tag_unused w) = m_wndClass w
  ∧ m_windowPlacement (tag_unused w) = m_windowPlacement w.
Proof. unfold tag_unused. by destruct (_ && _). Qed.

Lemma tag_unused_count w :
  m_nUnusedCount (tag_unused w) = tagged_count 1 w.
Proof.
  unfold tag_unused, tagged_count.
  destruct (decide (m_hwnd w = NULL)) as [Hnull|Hnull].
  - rewrite bool_decide_eq_false_2 by (intros ?; contradiction). done.
  - rewrite bool_decide_eq_true_2 by done. cbn [andb].
    destruct (Z.ltb_spec (m_nUnusedCount w) 100); cbn; lia.
Qed.

Lemma iter_tag_unused k w :
  m_hwnd (Nat.iter k tag_unused w) = m_hwnd w
  ∧ m_wndClass (Nat.iter k tag_unused w) = m_wndClass w
  ∧ m_windowPlacement (Nat.iter k tag_unused w) = m_windowPlacement w
  ∧ m_nUnusedCount (Nat.iter k tag_unused w) = tagged_count k w.
Proof.
  induction k as [|k (IHh & IHs & IHp & IHn)].
  - cbn. split_and!; try done.
    unfold tagged_count. case_decide; lia.
  - rewrite Nat.iter_succ.
    destruct (tag_unused_frame (Nat.iter k tag_unused w)) as (Fh & Fs & Fp).
    rewrite Fh, Fs, Fp, tag_unused_count.
    split_and!; try done.
    unfold tagged_count at 1. rewrite IHh, IHn.
    unfold tagged_count. case_decide; lia.
Qed.

Lemma TagWindowsUnused_iter k d :
  Nat.iter k TagWindowsUnused d = Nat.iter k tag_unused <$> d.
Proof.
  induction k as [|k IH].
  - cbn. by rewrite list_fmap_id.
  - rewrite !Nat.iter_succ, IH. unfold TagWindowsUnused. by rewrite <- list_fmap_compose.
Qed.

(** C4: after any number [k] of calls of [TagWindowsUnused] every record is
    still at its index, its unused count has not decreased and is at most
    100 (or still its old value, had that been above 100); the count of a
    record whose [m_hwnd] is NULL is unchanged, and so is every other
    field.  One call adds exactly one to the count of a record with a
    handle and a count below 100. *)
Theorem TagWindowsUnused_saturates (k : nat) (d : list SavedWindowData)
    (i : nat) (w : SavedWindowData) :
  d !! i = Some w →
  ∃ w', Nat.iter k TagWindowsUnused d !! i = Some w'
    ∧ m_nUnusedCount w ≤ m_nUnusedCount w'
    ∧ m_nUnusedCount w' ≤ Z.max (m_nUnusedCount w) 100
    ∧ (m_nUnusedCount w ≤ 100 → m_nUnusedCount w' ≤ 100)
    ∧ (m_hwnd w = NULL → w' = w)
    ∧ (m_hwnd w ≠ NULL → m_nUnusedCount w < 100 →
       ∃ w1, TagWindowsUnused d !! i = Some w1
         ∧ m_nUnusedCount w1 = m_nUnusedCount w + 1)
    ∧ m_nUnusedCount w' = tagged_count k w
    ∧ m_hwnd w' = m_hwnd w
    ∧ m_wndClass w' = m_wndClass w
    ∧ m_windowPlacement w' = m_windowPlacement w.
Proof.
  intros Hw. exists (Nat.iter k tag_unused w).
  destruct (iter_tag_unused k w) as (Hh & Hs & Hp & Hn).
  rewrite TagWindowsUnused_iter, list_lookup_fmap, Hw, Hn, Hh, Hs, Hp.
  split_and!; try done.
  - unfold tagged_count. case_decide; lia.
  - unfold tagged_count. case_decide; lia.
  - unfold tagged_count. case_decide; lia.
  - intros Hnull.
    assert (m_nUnusedCount (Nat.iter k tag_unused w) = m_nUnusedCount w)
      as Hc by (rewrite Hn; unfold tagged_count; by rewrite decide_True).
    destruct (Nat.iter k tag_unused w), w; cbn in *. congruence.
  - intros Hnull Hlt. exists (tag_unused w).
    unfold TagWindowsUnused. rewrite list_lookup_fmap, Hw. split; [done|].
    rewrite tag_unused_count. unfold tagged_count.
    rewrite decide_False by done. lia.
Qed.

Lemma TagWindowsUnused_saturates_witness :
  let w := Sample.record Sample.notepad "Notepad" 98
             Sample.zeroed Sample.zeroed Sample.zeroed Sample.zeroed in
  let d := [SavedWindowData_new Sample.zeroed4; w] in
  ∃ w', Nat.iter 5 TagWindowsUnused d !! 1%nat = Some w'
    ∧ m_nUnusedCount w' = 100.
Proof.
  intros w d.
  destruct (TagWindowsUnused_saturates 5 d 1 w eq_refl)
    as (w' & Hw' & _ & _ & _ & _ & _ & Hc & _).
  exists w'. split; [exact Hw'|]. rewrite Hc. reflexivity.
Defined.

(** ** InstanceData::FindWindowSlot *)

Lemma FindWindowSlot_found env d hwnd i w :
  list_find (λ w, m_hwnd w = hwnd) d = Some (i, w) →
  FindWindowSlot env d hwnd = (d, i).
Proof. intros H. unfold FindWindowSlot. by rewrite H. Qed.

Lemma FindWindowSlot_reused env d hwnd i w :
  list_find (λ w, m_hwnd w = hwnd) d = None →
  list_find unused d = Some (i, w) →
  FindWindowSlot env d hwnd = (d, i).
Proof. intros H1 H2. unfold FindWindowSlot. by rewrite H1, H2. Qed.

Lemma FindWindowSlot_grown env d hwnd :
  list_find (λ w, m_hwnd w = hwnd) d = None →
  list_find unused d = None →
  FindWindowSlot env d hwnd =
    (d ++ ((λ i, SavedWindowData_new (uninitialized env i))
             <$> seq (length d) 32), length d).
Proof.
  intros H1 H2. unfold FindWindowSlot. rewrite H1, H2. do 2 f_equal.
  rewrite <- fmap_drop. f_equal.
  rewrite seq_app, drop_app_length'; [done|by rewrite length_seq].
Qed.

(** [FindWindowSlot] never returns a slot outside the array. *)
Lemma FindWindowSlot_in_bounds env d hwnd :
  is_Some ((FindWindowSlot env d hwnd).1 !! (FindWindowSlot env d hwnd).2).
Proof.
  destruct (list_find (λ w, m_hwnd w = hwnd) d) as [[i w]|] eqn:Hfind.
  { rewrite (FindWindowSlot_found _ _ _ _ _ Hfind). cbn [fst snd].
    apply list_find_Some in Hfind as (Hi & _). by eexists. }
  destruct (list_find unused d) as [[i w]|] eqn:Hfree.
  { rewrite (FindWindowSlot_reused _ _ _ _ _ Hfind Hfree). cbn [fst snd].
    apply list_find_Some in Hfree as (Hi & _). by eexists. }
  rewrite (FindWindowSlot_grown _ _ _ Hfind Hfree). cbn [fst snd].
  apply lookup_lt_is_Some. rewrite length_app, length_fmap, length_seq. lia.
Qed.

(** C3: [FindWindowSlot] always returns a slot of the array, and
    - if some record holds the handle, the array is unchanged and the slot
      is the first such record;
    - otherwise, if some record has a NULL handle or an unused count above
      2 (a count of 3 is enough), the array is unchanged and the slot is
      the first such record;
    - otherwise the array is 32 longer, every old record is at its index
      unchanged, and the slot is the fresh record at the old length. *)
Theorem FindWindowSlot_spec (env : Environment) (d : list SavedWindowData)
    (hwnd : HWND) :
  let d' := (FindWindowSlot env d hwnd).1 in
  let i := (FindWindowSlot env d hwnd).2 in
  is_Some (d' !! i)
  ∧ ((d' = d
      ∧ ∃ w, d !! i = Some w ∧ m_hwnd w = hwnd
         ∧ ∀ j v, d !! j = Some v → (j < i)%nat → m_hwnd v ≠ hwnd)
     ∨ (d' = d
        ∧ Forall (λ v, m_hwnd v ≠ hwnd) d
        ∧ ∃ w, d !! i = Some w ∧ (m_hwnd w = NULL ∨ 2 < m_nUnusedCount w)
           ∧ ∀ j v, d !! j = Some v → (j < i)%nat →
               ¬ (m_hwnd v = NULL ∨ 2 < m_nUnusedCount v))
     ∨ (Forall (λ v, m_hwnd v ≠ hwnd) d
        ∧ Forall (λ v, ¬ (m_hwnd v = NULL ∨ 2 < m_nUnusedCount v)) d
        ∧ i = length d
        ∧ length d' = (length d + 32)%nat
        ∧ (∀ j v, d !! j = Some v → d' !! j = Some v)
        ∧ d' !! i = Some (SavedWindowData_new (uninitialized env i)))).
Proof.
  intros d' i. subst d' i.
  split; [apply FindWindowSlot_in_bounds|].
  destruct (list_find (λ w, m_hwnd w = hwnd) d) as [[i w]|] eqn:Hfind.
  { rewrite (FindWindowSlot_found _ _ _ _ _ Hfind). cbn [fst snd].
    apply list_find_Some in Hfind as (Hi & Hw & Hfirst).
    left. split; [done|]. exists w. eauto. }
  pose proof Hfind as Hnone. apply list_find_None in Hnone.
  destruct (list_find unused d) as [[i w]|] eqn:Hfree.
  { rewrite (FindWindowSlot_reused _ _ _ _ _ Hfind Hfree). cbn [fst snd].
    apply list_find_Some in Hfree as (Hi & Hw & Hfirst).
    right; left. split_and!; [done..|].
    exists w. eauto. }
  pose proof Hfree as Hfull. apply list_find_None in Hfull.
  rewrite (FindWindowSlot_grown _ _ _ Hfind Hfree). cbn [fst snd].
  assert ((d ++ ((λ i, SavedWindowData_new (uninitialized env i))
                   <$> seq (length d) 32)) !! length d
          = Some (SavedWindowData_new (uninitialized env (length d)))) as Hnew.
  { rewrite lookup_app_r by lia. by rewrite Nat.sub_diag. }
  right; right. split_and!; try done.
  - rewrite length_app, length_fmap, length_seq. done.
  - intros j v Hj. by apply lookup_app_l_Some.
Qed.

(** Three arrays: Notepad is found where it is; a record unused three
    times is reused before the array grows; a full array grows by 32. *)
Example FindWindowSlot_finds_handle :
  let d := [Sample.record Sample.calc "CalcFrame" 3
              Sample.zeroed Sample.zeroed Sample.zeroed Sample.zeroed;
            Sample.record Sample.notepad "Notepad" 5
              Sample.zeroed Sample.zeroed Sample.zeroed Sample.zeroed] in
  FindWindowSlot Sample.two_monitors d Sample.notepad = (d, 1%nat).
Proof. reflexivity. Qed.

Example FindWindowSlot_reuses_stale_3 :
  let d := [Sample.record Sample.calc "CalcFrame" 2
              Sample.zeroed Sample.zeroed Sample.zeroed Sample.zeroed;
            Sample.record 0x30%N "Shell" 3
              Sample.zeroed Sample.zeroed Sample.zeroed Sample.zeroed] in
  FindWindowSlot Sample.two_monitors d Sample.notepad = (d, 1%nat).
Proof. reflexivity. Qed.

Example FindWindowSlot_grows_when_full :
  let d := [Sample.record Sample.calc "CalcFrame" 2
              Sample.zeroed Sample.zeroed Sample.zeroed Sample.zeroed] in
  FindWindowSlot Sample.two_monitors d Sample.notepad
  = (d ++ replicate 32 (SavedWindowData_new Sample.zeroed4), 1%nat).
Proof. reflexivity. Qed.

(** ** Sweeps: SaveWindowsCallback and ProcessDesktopWindows *)







Lemma ProcessDesktopWindows_skips env g :
  SM_CMONITORS env ≠ _NumMonitors g → ProcessDesktopWindows env g = g.
Proof.
  intros H. unfold ProcessDesktopWindows. by rewrite bool_decide_eq_true_2.
Qed.

Lemma ProcessDesktopWindows_sweeps env g :
  SM_CMONITORS env = _NumMonitors g →
  ProcessDesktopWindows env g =
    with_WindowData g
      (EnumDesktopWindows env (TagWindowsUnused (_WindowData g))
         (SM_CMONITORS env)).
Proof.
  intros H. unfold ProcessDesktopWindows.
  by rewrite bool_decide_eq_false_2 by (intros ?; congruence).
Qed.






(** The flag gates the arming of the save timer, not its firing: a timer
    armed before [WM_DISPLAYCHANGE] still runs [ProcessDesktopWindows],
    which then sweeps exactly when the two monitor counts agree. *)
Lemma armed_save_timer_runs env app :
  timer_2 app = true →
  g_Instance (dispatch env (WndProc_WM_DISPLAYCHANGE app) WM_TIMER_2).1
  = ProcessDesktopWindows env (g_Instance (WndProc_WM_DISPLAYCHANGE app)).
Proof. intros H. cbn. by rewrite H. Qed.

(** ** ProcessMonitors *)

(** The restore pass runs exactly when more than one monitor is reported
    and the count differs from [_NumMonitors], whichever is larger. *)
Lemma ProcessMonitors_calls env g :
  (ProcessMonitors env g).2 =
    if decide (1 < SM_CMONITORS env ∧ SM_CMONITORS env ≠ _NumMonitors g)
    then (RestoreWindowPositions env (SM_CMONITORS env) (_WindowData g)).2
    else [].
Proof.
  unfold ProcessMonitors. case_decide as H.
  - destruct H as [H1 H2].
    rewrite (proj2 (Z.gtb_lt _ _)), bool_decide_eq_true_2 by done.
    cbn [andb]. by destruct RestoreWindowPositions.
  - destruct (Z.gtb_spec (SM_CMONITORS env) 1) as [H1|H1]; [|done].
    rewrite bool_decide_eq_false_2; [done|]. intros H2. apply H. lia.
Qed.

Lemma ProcessMonitors_no_restore env g :
  SM_CMONITORS env ≤ 1 ∨ SM_CMONITORS env = _NumMonitors g →
  ProcessMonitors env g =
    ({| _WindowData := _WindowData g; _NumMonitors := SM_CMONITORS env;
        InChangingState := false |}, []).
Proof.
  intros H. unfold ProcessMonitors.
  destruct (Z.gtb_spec (SM_CMONITORS env) 1) as [H1|H1]; [|done].
  rewrite bool_decide_eq_false_2; [done|]. intros H2. lia.
Qed.

(** C10: [ProcessMonitors] always leaves [_NumMonitors] at the monitor
    count it has just read and [InChangingState] cleared.  This includes
    the runs without a restore pass (one monitor or fewer, or an unchanged
    count), which make no call and leave the array alone.  Afterwards, in
    the same environment, a window event on a window arms the save timer
    and [ProcessDesktopWindows] sweeps. *)
Theorem ProcessMonitors_settles (env : Environment) (g : InstanceData) :
  let g' := (ProcessMonitors env g).1 in
  _NumMonitors g' = SM_CMONITORS env
  ∧ InChangingState g' = false
  ∧ (SM_CMONITORS env ≤ 1 ∨ SM_CMONITORS env = _NumMonitors g →
     (ProcessMonitors env g).2 = [] ∧ _WindowData g' = _WindowData g)
  ∧ (∀ app, g_Instance (TimerCallback env app).1
            = (ProcessMonitors env (g_Instance app)).1)
  ∧ ProcessDesktopWindows env g' =
      with_WindowData g'
        (EnumDesktopWindows env (TagWindowsUnused (_WindowData g'))
           (SM_CMONITORS env))
  ∧ (∀ app dwEvent hwnd,
       g_Instance app = g' → hwnd ≠ NULL →
       dwEvent = Win32.EVENT_SYSTEM_MOVESIZEEND
       ∨ dwEvent = Win32.EVENT_OBJECT_LOCATIONCHANGE →
       timer_2 (WinEventProcCallback app dwEvent hwnd) = true).
Proof.
  intros g'.
  assert (_NumMonitors g' = SM_CMONITORS env ∧ InChangingState g' = false)
    as [Hn Hc].
  { subst g'. unfold ProcessMonitors.
    by destruct (if (SM_CMONITORS env >? 1) && _
                 then RestoreWindowPositions env _ _ else _). }
  split_and!; try done.
  - intros H. subst g'. rewrite ProcessMonitors_no_restore by done.
    by split.
  - intros app. unfold TimerCallback. by destruct (ProcessMonitors env (g_Instance app)).
  - by apply ProcessDesktopWindows_sweeps.
  - intros app dwEvent hwnd Happ Hwnd Hev. unfold WinEventProcCallback.
    rewrite Happ, Hc, bool_decide_eq_true_2 by done.
    by destruct Hev as [-> | ->].
Qed.

(** C1 fails on the code: a restore pass also runs when the monitor count
    goes down to a count above one.  Here Notepad was tracked with two
    monitors, a third monitor was plugged in and is now unplugged:
    [_NumMonitors] is 3, two monitors are reported, and the debounced
    handler moves Notepad back to its two-monitor placement. *)
Theorem ProcessMonitors_restores_on_decrease :
  let app := WndProc_WM_DISPLAYCHANGE Sample.before_unplug in
  _NumMonitors (g_Instance app) = 3
  ∧ SM_CMONITORS Sample.two_monitors = 2
  ∧ (ProcessMonitors Sample.two_monitors (g_Instance app)).2
    = (RestoreWindowPositions Sample.two_monitors 2
         (_WindowData (g_Instance app))).2
  ∧ (dispatch Sample.two_monitors app WM_TIMER_99).2
    = [SetWindowPlacement Sample.notepad
         {| Win32.length := 44; Win32.flags := 4; Win32.showCmd := 4;
            Win32.ptMinPosition := Sample.origin;
            Win32.ptMaxPosition := Sample.origin;
            Win32.rcNormalPosition := Sample.rect 100 100 740 580 |}].
Proof.
  cbv zeta. split_and!.
  - by vm_compute.
  - done.
  - rewrite ProcessMonitors_calls. by vm_compute.
  - by vm_compute.
Qed.

(** ** Reuse of a slot *)

(** C8: when [FindWindowSlot] hands the slot of another occupant (an empty
    record or a stale window) to a newly observed window, the sweep
    overwrites the handle, the unused count, the class name and the array
    element of the current monitor count, and nothing else: the other
    array elements are still the previous occupant's.  If one of them is a
    saved placement, a later [RestoreWindow] for its monitor count passes
    the class test, because [m_wndClass] is now the new window's own class,
    and applies the previous occupant's rectangle to the new window. *)
Theorem reused_slot_restores_previous_geometry
    (env env' : Environment) (d : list SavedWindowData) (hwnd : HWND)
    (n m : Z) (i : nat) (w : SavedWindowData) :
  tracked env hwnd = true →
  FindWindowSlot env d hwnd = (d, i) →
  d !! i = Some w →
  m_hwnd w ≠ hwnd →
  in_range n = true → in_range m = true → m ≠ n →
  Win32.length (m_windowPlacement w !!! bucket m)
  = Win32.sizeof_WINDOWPLACEMENT →
  IsWindow env' hwnd = true →
  window_class env' hwnd = window_class env hwnd →
  ∃ w', SaveWindowsCallback env d hwnd n !! i = Some w'
    ∧ m_hwnd w' = hwnd
    ∧ m_nUnusedCount w' = 0
    ∧ m_wndClass w' = RealGetWindowClass env hwnd m_wndClass_size
    ∧ (∀ b, b ≠ bucket n →
         m_windowPlacement w' !!! b = m_windowPlacement w !!! b)
    ∧ restore_result (RestoreWindow env' w' m) = applied
    ∧ ∃ p, last (RestoreWindow env' w' m).2 = Some (SetWindowPlacement hwnd p)
        ∧ Win32.rcNormalPosition p
          = Win32.rcNormalPosition (m_windowPlacement w !!! bucket m)
        ∧ Win32.ptMinPosition p
          = Win32.ptMinPosition (m_windowPlacement w !!! bucket m)
        ∧ Win32.ptMaxPosition p
          = Win32.ptMaxPosition (m_windowPlacement w !!! bucket m).
Proof.
  intros Htracked Hslot Hw Hother Hn Hm Hmn Hlen Hwin Hclass.
  exists (SetData env w hwnd n).1.
  destruct (SetData_identity env w hwnd n) as (Hh & Hc & Hs).
  assert (∀ b, b ≠ bucket n →
            m_windowPlacement (SetData env w hwnd n).1 !!! b
            = m_windowPlacement w !!! b) as Hframe.
  { intros b Hb. apply SetData_other_buckets. by right. }
  assert (bucket m ≠ bucket n) as Hbm.
  { intros E. by apply Hmn, bucket_inj. }
  assert (restorable env' (SetData env w hwnd n).1 m) as Hr.
  { unfold restorable. rewrite Hh, Hs, (Hframe _ Hbm).
    unfold RealGetWindowClass. by rewrite Hclass. }
  split_and!; try done.
  - unfold SaveWindowsCallback. rewrite Htracked, Hslot, Hw.
    apply list_lookup_insert_eq. by apply lookup_lt_Some in Hw.
  - rewrite (RestoreWindow_restorable _ _ _ Hr).
    unfold restore_result. cbn [snd]. by destruct (_ =? _).
  - rewrite (RestoreWindow_restorable _ _ _ Hr). cbn [snd].
    rewrite Hh, (Hframe _ Hbm). eexists. split.
    + destruct (_ =? _); cbn; reflexivity.
    + done.
Qed.

Lemma reused_slot_restores_previous_geometry_witness :
  let RA := Sample.rect 4000 50 4640 530 in
  let d := [Sample.record Sample.notepad "Notepad" 3
              Sample.zeroed (Sample.placement 1 RA)
              Sample.zeroed Sample.zeroed] in
  ∃ w', SaveWindowsCallback Sample.calc_opens d Sample.calc 2 !! 0%nat
        = Some w'
    ∧ m_wndClass w' = "CalcFrame"
    ∧ ∃ p, last (RestoreWindow Sample.calc_on_three w' 3).2
           = Some (SetWindowPlacement Sample.calc p)
        ∧ Win32.rcNormalPosition p = RA.
Proof.
  intros RA d.
  destruct (reused_slot_restores_previous_geometry
              Sample.calc_opens Sample.calc_on_three d Sample.calc 2 3 0
              (Sample.record Sample.notepad "Notepad" 3
                 Sample.zeroed (Sample.placement 1 RA)
                 Sample.zeroed Sample.zeroed))
    as (w' & Hw' & _ & _ & Hs & _ & _ & p & Hp & Hrc & _);
    [reflexivity | reflexivity | reflexivity | by vm_compute | reflexivity
    | reflexivity | lia | reflexivity | reflexivity | reflexivity |].
  exists w'. split; [exact Hw'|]. split; [exact Hs|].
  exists p. split; [exact Hp|exact Hrc].
Defined.

(** The same in a whole session, from [InitInstance] on: the only call the
    program makes moves Calculator to the rectangle saved for Notepad. *)
Lemma reuse_session_moves_calc_to_notepad_rectangle :
  (run (InitInstance Sample.notepad_on_third) Sample.reuse_session).2
  = [SetWindowPlacement Sample.calc
       {| Win32.length := 44; Win32.flags := 4; Win32.showCmd := 4;
          Win32.ptMinPosition := Sample.origin;
          Win32.ptMaxPosition := Sample.origin;
          Win32.rcNormalPosition := Sample.rect 4000 50 4640 530 |}].
Proof. by vm_compute. Qed.

(** * Further properties of the code *)

(** ** SetData and RestoreWindow together *)

Lemma vinsert_vinsert {A n} (i : fin n) (x y : A) (v : vec A n) :
  vinsert i x (vinsert i y v) = vinsert i x v.
Proof.
  apply vec_eq. intros j. destruct (decide (i = j)) as [->|Hne].
  - by rewrite !vlookup_insert.
  - by rewrite !vlookup_insert_ne.
Qed.

Lemma RestoreWindow_not_restorable env self n :
  ¬ restorable env self n → RestoreWindow env self n = (self, []).
Proof.
  intros Hnot. unfold RestoreWindow.
  destruct (in_range n) eqn:Hn; [|done].
  destruct (IsWindow env (m_hwnd self)) eqn:Hw; [|done].
  destruct (Z.eqb_spec (Win32.length (m_windowPlacement self !!! bucket n))
              Win32.sizeof_WINDOWPLACEMENT) as [Hl|Hl]; [|done].
  destruct (String.eqb_spec
              (RealGetWindowClass env (m_hwnd self) m_wndClass_size)
              (m_wndClass self)) as [Hc|Hc]; [|done].
  destruct Hnot. by repeat split.
Qed.

Lemma restorable_dec env self n :
  restorable env self n ∨ ¬ restorable env self n.
Proof.
  unfold restorable.
  destruct (in_range n); [|right; intros (? & _); done].
  destruct (IsWindow env (m_hwnd self)); [|right; intros (_ & ? & _); done].
  destruct (decide (Win32.length (m_windowPlacement self !!! bucket n)
                    = Win32.sizeof_WINDOWPLACEMENT));
    [|right; intros (_ & _ & ? & _); done].
  destruct (decide (RealGetWindowClass env (m_hwnd self) m_wndClass_size
                    = m_wndClass self));
    [by left|right; intros (_ & _ & _ & ?); done].
Qed.

Lemma stored_showCmd_idempotent c :
  stored_showCmd (stored_showCmd c) = stored_showCmd c.
Proof.
  unfold stored_showCmd.
  destruct (Z.eqb_spec c Win32.SW_MAXIMIZE) as [->|H3]; [done|].
  destruct (Z.eqb_spec c Win32.SW_MINIMIZE) as [->|H6]; [done|].
  destruct (Z.eqb_spec c Win32.SW_SHOWMINIMIZED) as [->|H2]; [done|].
  destruct (Z.eqb_spec c Win32.SW_NORMAL) as [->|H1]; [done|].
  cbn [orb].
  destruct (Z.eqb_spec c Win32.SW_MAXIMIZE); [done|].
  destruct (Z.eqb_spec c Win32.SW_MINIMIZE); [done|].
  destruct (Z.eqb_spec c Win32.SW_SHOWMINIMIZED); [done|].
  destruct (Z.eqb_spec c Win32.SW_NORMAL); done.
Qed.

Lemma stored_showCmd_maximize c :
  (stored_showCmd c =? Win32.SW_MAXIMIZE) = (c =? Win32.SW_MAXIMIZE).
Proof.
  unfold stored_showCmd.
  destruct (Z.eqb_spec c Win32.SW_MAXIMIZE) as [->|H3]; [done|].
  destruct (Z.eqb_spec c Win32.SW_MINIMIZE) as [->|H6]; [done|].
  destruct (Z.eqb_spec c Win32.SW_SHOWMINIMIZED) as [->|H2]; [done|].
  destruct (Z.eqb_spec c Win32.SW_NORMAL) as [->|H1]; [done|].
  cbn [orb]. by apply Z.eqb_neq.
Qed.

(** X1: restoring twice in the same environment is restoring once: the
    second [RestoreWindow] leaves the record as the first one left it and
    makes the same calls. *)
Theorem RestoreWindow_idempotent (env : Environment)
    (self : SavedWindowData) (n : Z) :
  RestoreWindow env (RestoreWindow env self n).1 n
  = RestoreWindow env self n.
Proof.
  transitivity ((RestoreWindow env self n).1, (RestoreWindow env self n).2);
    [|by destruct (RestoreWindow env self n)].
  destruct (restorable_dec env self n) as [Hr|Hr].
  - pose proof (RestoreWindow_restorable _ _ _ Hr) as E. cbv zeta in E.
    rewrite E. cbn [fst snd].
    set (saved := m_windowPlacement self !!! bucket n) in *.
    set (place := Win32.set_flags Win32.WPF_ASYNCWINDOWPLACEMENT saved) in *.
    set (final := Win32.set_showCmd (stored_showCmd (Win32.showCmd place))
                    place) in *.
    assert (restorable env (with_placement self (bucket n) final) n) as Hr'.
    { destruct Hr as (Hn & Hw & Hl & Hc). unfold restorable. cbn.
      rewrite vlookup_insert. by split_and!. }
    pose proof (RestoreWindow_restorable _ _ _ Hr') as E'. cbv zeta in E'.
    rewrite E'. unfold with_placement.
    cbn [m_windowPlacement m_hwnd m_nUnusedCount m_wndClass].
    rewrite vlookup_insert, vinsert_vinsert.
    subst final place. destruct saved as [l f c pmin pmax rc].
    cbn [Win32.set_flags Win32.set_showCmd Win32.showCmd Win32.flags
         Win32.length Win32.ptMinPosition Win32.ptMaxPosition
         Win32.rcNormalPosition].
    rewrite stored_showCmd_idempotent, stored_showCmd_maximize.
    done.
  - rewrite (RestoreWindow_not_restorable _ _ _ Hr). cbn [fst snd].
    by apply RestoreWindow_not_restorable.
Qed.

(** X2: a placement captured by [SetData] comes back from [RestoreWindow]
    for the same monitor count: while the window exists and keeps its class,
    the last call hands it the captured rectangle and points, with the
    show command maximized for a maximized window, minimized without
    activation for a minimized one and shown without activation for a
    normal one. *)
Theorem capture_then_restore (env env' : Environment)
    (self : SavedWindowData) (hwnd : HWND) (n : Z) (p : WINDOWPLACEMENT) :
  in_range n = true →
  window_placement env hwnd = Some p →
  IsWindow env' hwnd = true →
  window_class env' hwnd = window_class env hwnd →
  last (RestoreWindow env' (SetData env self hwnd n).1 n).2
  = Some (SetWindowPlacement hwnd
            {| Win32.length := Win32.sizeof_WINDOWPLACEMENT;
               Win32.flags := Win32.WPF_ASYNCWINDOWPLACEMENT;
               Win32.showCmd :=
                 if Win32.showCmd p =? Win32.SW_MAXIMIZE
                 then Win32.SW_MAXIMIZE
                 else if (Win32.showCmd p =? Win32.SW_MINIMIZE)
                         || (Win32.showCmd p =? Win32.SW_SHOWMINIMIZED)
                 then Win32.SW_SHOWMINNOACTIVE
                 else if Win32.showCmd p =? Win32.SW_NORMAL
                 then Win32.SW_SHOWNOACTIVATE
                 else Win32.showCmd p;
               Win32.ptMinPosition := Win32.ptMinPosition p;
               Win32.ptMaxPosition := Win32.ptMaxPosition p;
               Win32.rcNormalPosition := Win32.rcNormalPosition p |}).
Proof.
  intros Hn Hp Hw Hc.
  assert (m_windowPlacement (SetData env self hwnd n).1 !!! bucket n
          = Win32.set_length Win32.sizeof_WINDOWPLACEMENT p) as Hb.
  { rewrite SetData_in_range by done. cbn. rewrite vlookup_insert.
    unfold GetWindowPlacement. by rewrite Hp. }
  destruct (SetData_identity env self hwnd n) as (Hh & _ & Hs).
  assert (restorable env' (SetData env self hwnd n).1 n) as Hr.
  { unfold restorable. rewrite Hh, Hs, Hb. unfold RealGetWindowClass.
    by rewrite Hc. }
  rewrite (RestoreWindow_restorable _ _ _ Hr), Hh, Hb. cbn [snd].
  unfold stored_showCmd. cbn.
  by destruct (Win32.showCmd p =? Win32.SW_MAXIMIZE).
Qed.

Lemma capture_then_restore_witness :
  let self := SavedWindowData_new Sample.zeroed4 in
  ∃ p, last (RestoreWindow Sample.calc_on_three
               (SetData Sample.calc_on_three self Sample.calc 3).1 3).2
       = Some (SetWindowPlacement Sample.calc p)
    ∧ Win32.rcNormalPosition p = Sample.rect 30 30 350 510
    ∧ Win32.showCmd p = Win32.SW_SHOWNOACTIVATE.
Proof.
  intros self. eexists. split.
  - apply (capture_then_restore Sample.calc_on_three Sample.calc_on_three
             self Sample.calc 3
             (Sample.placement 1 (Sample.rect 30 30 350 510)));
      reflexivity.
  - split; reflexivity.
Defined.

(** Capturing the same window twice in the same environment is capturing
    it once, whatever the monitor count. *)
Lemma SetData_twice (env : Environment) (self : SavedWindowData)
    (hwnd : HWND) (n : Z) :
  SetData env (SetData env self hwnd n).1 hwnd n = SetData env self hwnd n.
Proof.
  destruct (in_range n) eqn:Hn.
  - rewrite (SetData_in_range env self) by done. cbn [fst].
    rewrite SetData_in_range by done. f_equal.
    unfold with_placement, observed. cbn.
    rewrite vlookup_insert, vinsert_vinsert. do 2 f_equal.
    unfold GetWindowPlacement.
    destruct (window_placement env hwnd) as [p|]; [done|].
    by destruct (m_windowPlacement self !!! bucket n).
  - rewrite (SetData_out_of_range env self) by done. cbn [fst].
    by rewrite SetData_out_of_range.
Qed.

(** ** InstanceData::RestoreWindowPositions *)

Lemma RestoreWindowPositions_unfold env n d :
  RestoreWindowPositions env n d =
    ((λ w, (restore_one env n w).1) <$> d,
     concat ((λ w, (restore_one env n w).2) <$> d)).
Proof.
  induction d as [|w d IH]; [done|].
  cbn [RestoreWindowPositions]. rewrite IH, !fmap_cons. cbn [concat].
  change (if bool_decide (m_hwnd w ≠ NULL) && (m_nUnusedCount w <=? 2)
          then RestoreWindow env w n else (w, []))
    with (restore_one env n w).
  by destruct (restore_one env n w).
Qed.

Lemma live_spec w :
  bool_decide (m_hwnd w ≠ NULL) && (m_nUnusedCount w <=? 2) = true ↔ live w.
Proof.
  unfold live. rewrite andb_true_iff, bool_decide_eq_true, Z.leb_le. done.
Qed.

Lemma restore_one_live env n w :
  live w → restore_one env n w = RestoreWindow env w n.
Proof. intros H. unfold restore_one. by rewrite (proj2 (live_spec w)). Qed.

Lemma restore_one_not_live env n w :
  ¬ live w → restore_one env n w = (w, []).
Proof.
  intros H. unfold restore_one.
  destruct (_ && _) eqn:E; [|done]. by apply live_spec in E.
Qed.

Lemma live_dec w : live w ∨ ¬ live w.
Proof.
  destruct (bool_decide (m_hwnd w ≠ NULL) && (m_nUnusedCount w <=? 2)) eqn:E.
  - left. by apply live_spec.
  - right. intros H. apply live_spec in H. congruence.
Qed.

Lemma RestoreWindow_frame env w n :
  m_hwnd (RestoreWindow env w n).1 = m_hwnd w
  ∧ m_nUnusedCount (RestoreWindow env w n).1 = m_nUnusedCount w
  ∧ m_wndClass (RestoreWindow env w n).1 = m_wndClass w
  ∧ ∀ b, same_geometry (m_windowPlacement (RestoreWindow env w n).1 !!! b)
           (m_windowPlacement w !!! b)
       ∧ (b ≠ bucket n →
          m_windowPlacement (RestoreWindow env w n).1 !!! b
          = m_windowPlacement w !!! b).
Proof.
  destruct (restorable_dec env w n) as [Hr|Hr].
  - rewrite (RestoreWindow_restorable _ _ _ Hr). cbn [fst].
    split_and!; try done. intros b. cbn.
    destruct (decide (bucket n = b)) as [<-|Hne].
    + rewrite vlookup_insert. by split.
    + rewrite vlookup_insert_ne by done. by split.
  - rewrite (RestoreWindow_not_restorable _ _ _ Hr). by split_and!.
Qed.

Lemma restore_one_frame env w n :
  m_hwnd (restore_one env n w).1 = m_hwnd w
  ∧ m_nUnusedCount (restore_one env n w).1 = m_nUnusedCount w
  ∧ m_wndClass (restore_one env n w).1 = m_wndClass w
  ∧ ∀ b, same_geometry (m_windowPlacement (restore_one env n w).1 !!! b)
           (m_windowPlacement w !!! b)
       ∧ (b ≠ bucket n →
          m_windowPlacement (restore_one env n w).1 !!! b
          = m_windowPlacement w !!! b).
Proof.
  destruct (live_dec w) as [H|H].
  - rewrite restore_one_live by done. apply RestoreWindow_frame.
  - rewrite restore_one_not_live by done. by split_and!.
Qed.

(** X3: a restore pass keeps the array as long as it was and every record
    at its index with its handle, unused count and class; in every array
    element the saved rectangle, points and length stay, and the elements
    of the other monitor counts are untouched altogether. *)
Theorem RestoreWindowPositions_frame (env : Environment) (n : Z)
    (d : list SavedWindowData) (i : nat) (w : SavedWindowData) :
  d !! i = Some w →
  length (RestoreWindowPositions env n d).1 = length d
  ∧ ∃ w', (RestoreWindowPositions env n d).1 !! i = Some w'
      ∧ m_hwnd w' = m_hwnd w
      ∧ m_nUnusedCount w' = m_nUnusedCount w
      ∧ m_wndClass w' = m_wndClass w
      ∧ ∀ b, same_geometry (m_windowPlacement w' !!! b)
               (m_windowPlacement w !!! b)
           ∧ (b ≠ bucket n →
              m_windowPlacement w' !!! b = m_windowPlacement w !!! b).
Proof.
  intros Hw. rewrite RestoreWindowPositions_unfold. cbn [fst].
  split; [by rewrite length_fmap|].
  exists (restore_one env n w).1. rewrite list_lookup_fmap, Hw.
  split; [done|]. apply restore_one_frame.
Qed.

Lemma RestoreWindowPositions_frame_witness :
  let w := Sample.record Sample.calc "CalcFrame" 0
             Sample.zeroed (Sample.placement 2 (Sample.rect 30 30 350 510))
             Sample.zeroed Sample.zeroed in
  ∃ w', (RestoreWindowPositions Sample.calc_on_three 3
           [SavedWindowData_new Sample.zeroed4; w]).1 !! 1%nat = Some w'
    ∧ m_hwnd w' = Sample.calc.
Proof.
  intros w.
  destruct (RestoreWindowPositions_frame Sample.calc_on_three 3
              [SavedWindowData_new Sample.zeroed4; w] 1 w eq_refl)
    as (_ & w' & Hw' & Hh & _).
  exists w'. split; [exact Hw'|exact Hh].
Defined.

Lemma elem_of_concat {A} (x : A) (ls : list (list A)) :
  x ∈ concat ls → ∃ l, x ∈ l ∧ l ∈ ls.
Proof.
  induction ls as [|l ls IH]; cbn [concat].
  - intros H. by apply elem_of_nil in H.
  - intros [H|H]%elem_of_app.
    + exists l. split; [done|]. by left.
    + destruct (IH H) as (l' & ? & ?). exists l'. split; [done|]. by right.
Qed.

Lemma concat_elem_of {A} (x : A) (l : list A) (ls : list (list A)) :
  x ∈ l → l ∈ ls → x ∈ concat ls.
Proof.
  intros Hx Hl. induction ls as [|l' ls IH].
  - by apply elem_of_nil in Hl.
  - cbn [concat]. apply elem_of_app.
    apply elem_of_cons in Hl as [->|Hl]; [by left|right; by apply IH].
Qed.

Lemma RestoreWindow_calls_safe env w n h p :
  SetWindowPlacement h p ∈ (RestoreWindow env w n).2 →
  restorable env w n
  ∧ h = m_hwnd w
  ∧ Win32.flags p = Win32.WPF_ASYNCWINDOWPLACEMENT
  ∧ same_geometry p (m_windowPlacement w !!! bucket n).
Proof.
  destruct (restorable_dec env w n) as [Hr|Hr].
  - rewrite (RestoreWindow_restorable _ _ _ Hr). cbn [snd]. intros Hin.
    split; [done|].
    destruct (_ =? _); repeat (apply elem_of_cons in Hin as [Hin|Hin]);
      try (by apply elem_of_nil in Hin);
      injection Hin as -> ->; by split_and!.
  - rewrite (RestoreWindow_not_restorable _ _ _ Hr). cbn [snd].
    intros Hin. by apply elem_of_nil in Hin.
Qed.

(** X4: every call a restore pass makes is for a monitor count between 2
    and 5 and goes, with the flag WPF_ASYNCWINDOWPLACEMENT, to the handle
    of a record that has a handle, was missed by at most two sweeps and
    whose handle is a window of the class stored; the placement passed
    carries a rectangle saved in that record for the monitor count. *)
Theorem RestoreWindowPositions_calls_safe (env : Environment) (n : Z)
    (d : list SavedWindowData) (h : HWND) (p : WINDOWPLACEMENT) :
  SetWindowPlacement h p ∈ (RestoreWindowPositions env n d).2 →
  2 ≤ n ≤ 5
  ∧ h ≠ NULL
  ∧ IsWindow env h = true
  ∧ Win32.flags p = Win32.WPF_ASYNCWINDOWPLACEMENT
  ∧ Win32.length p = Win32.sizeof_WINDOWPLACEMENT
  ∧ ∃ i w, d !! i = Some w
      ∧ m_hwnd w = h
      ∧ m_nUnusedCount w ≤ 2
      ∧ RealGetWindowClass env h m_wndClass_size = m_wndClass w
      ∧ same_geometry p (m_windowPlacement w !!! bucket n).
Proof.
  rewrite RestoreWindowPositions_unfold. cbn [snd]. intros Hin.
  apply elem_of_concat in Hin as (calls & Hin & Hcalls).
  apply list_elem_of_fmap in Hcalls as (w & -> & Hw).
  apply list_elem_of_lookup in Hw as (i & Hi).
  destruct (live_dec w) as [[Hh Hc]|Hl].
  - rewrite restore_one_live in Hin by done.
    apply RestoreWindow_calls_safe in Hin
      as ((Hn & Hwin & Hlen & Hcls) & -> & Hf & Hg).
    apply in_range_spec in Hn.
    assert (Win32.length p = Win32.sizeof_WINDOWPLACEMENT) as Hp.
    { destruct Hg as (Hg & _). by rewrite Hg. }
    split_and!; try done; try lia.
    exists i, w. by split_and!.
  - rewrite restore_one_not_live in Hin by done. by apply elem_of_nil in Hin.
Qed.

Lemma RestoreWindowPositions_calls_safe_witness :
  let w := Sample.record Sample.calc "CalcFrame" 0
             Sample.zeroed (Sample.placement 2 (Sample.rect 30 30 350 510))
             Sample.zeroed Sample.zeroed in
  let p := {| Win32.length := 44; Win32.flags := 4; Win32.showCmd := 7;
              Win32.ptMinPosition := Sample.origin;
              Win32.ptMaxPosition := Sample.origin;
              Win32.rcNormalPosition := Sample.rect 30 30 350 510 |} in
  Sample.calc ≠ NULL ∧ IsWindow Sample.calc_on_three Sample.calc = true.
Proof.
  intros w p.
  destruct (RestoreWindowPositions_calls_safe Sample.calc_on_three 3
              [SavedWindowData_new Sample.zeroed4; w] Sample.calc p)
    as (_ & Hh & Hw & _).
  - vm_compute. constructor.
  - split; [exact Hh|exact Hw].
Defined.

(** The calls of a restore pass are the calls [RestoreWindow] makes for
    the records that have a handle and were missed by at most two sweeps. *)
Lemma RestoreWindowPositions_calls_iff (env : Environment) (n : Z)
    (d : list SavedWindowData) (c : Call) :
  c ∈ (RestoreWindowPositions env n d).2
  ↔ ∃ i w, d !! i = Some w
      ∧ m_hwnd w ≠ NULL ∧ m_nUnusedCount w ≤ 2
      ∧ c ∈ (RestoreWindow env w n).2.
Proof.
  rewrite RestoreWindowPositions_unfold. cbn [snd]. split.
  - intros Hin. apply elem_of_concat in Hin as (calls & Hin & Hcalls).
    apply list_elem_of_fmap in Hcalls as (w & -> & Hw).
    apply list_elem_of_lookup in Hw as (i & Hi).
    destruct (live_dec w) as [Hl|Hl].
    + rewrite restore_one_live in Hin by done. destruct Hl.
      exists i, w. by split_and!.
    + rewrite restore_one_not_live in Hin by done.
      by apply elem_of_nil in Hin.
  - intros (i & w & Hi & Hh & Hc & Hin).
    apply (concat_elem_of _ (restore_one env n w).2).
    + rewrite restore_one_live; [done|by split].
    + apply list_elem_of_fmap. exists w. split; [done|].
      apply list_elem_of_lookup. by exists i.
Qed.

(** X5: after three or more calls of [TagWindowsUnused] with no sweep in
    between, on counts that were not negative, every record is one that
    [FindWindowSlot] may reuse and a restore pass makes no call and leaves
    the array as it is. *)
Theorem three_misses_retire (env : Environment) (n : Z) (k : nat)
    (d : list SavedWindowData) :
  (3 ≤ k)%nat →
  Forall (λ w, 0 ≤ m_nUnusedCount w) d →
  let d' := Nat.iter k TagWindowsUnused d in
  Forall (λ w, m_hwnd w = NULL ∨ 2 < m_nUnusedCount w) d'
  ∧ RestoreWindowPositions env n d' = (d', []).
Proof.
  intros Hk Hd d'.
  assert (Forall (λ w, ¬ live w) d') as Hdead.
  { subst d'. rewrite TagWindowsUnused_iter. apply Forall_fmap.
    eapply Forall_impl; [exact Hd|]. intros w Hw. cbn. cbn beta in Hw.
    destruct (iter_tag_unused k w) as (Hh & _ & _ & Hc).
    unfold live. rewrite Hh, Hc. unfold tagged_count.
    case_decide; [tauto|]. intros [_ Hle]. lia. }
  split.
  - eapply Forall_impl; [exact Hdead|]. intros w Hw. cbn in Hw.
    unfold live in Hw. destruct (decide (m_hwnd w = NULL)); [by left|].
    right. lia.
  - rewrite RestoreWindowPositions_unfold. clear -Hdead.
    induction Hdead as [|w l Hw _ IH]; [done|].
    rewrite !fmap_cons. cbn [concat].
    injection IH as IH1 IH2. rewrite IH1, IH2.
    by rewrite restore_one_not_live.
Qed.

Lemma three_misses_retire_witness :
  let d := [Sample.record Sample.notepad "Notepad" 0
              (Sample.placement 1 (Sample.rect 0 0 640 480))
              Sample.zeroed Sample.zeroed Sample.zeroed] in
  RestoreWindowPositions Sample.two_monitors 2
    (Nat.iter 3 TagWindowsUnused d)
  = (Nat.iter 3 TagWindowsUnused d, []).
Proof.
  intros d.
  refine (proj2 (three_misses_retire Sample.two_monitors 2 3 d _ _)).
  - lia.
  - repeat constructor. cbn. lia.
Defined.

(** X6: a restore pass leaves no live window out.  For every record that
    has a handle, was missed by at most two sweeps and passes the tests of
    [RestoreWindow], the pass hands the window its saved rectangle and
    points with the show command [RestoreWindow] leaves stored. *)
Theorem RestoreWindowPositions_complete (env : Environment) (n : Z)
    (d : list SavedWindowData) (i : nat) (w : SavedWindowData) :
  d !! i = Some w →
  m_hwnd w ≠ NULL → m_nUnusedCount w ≤ 2 →
  restorable env w n →
  let saved := m_windowPlacement w !!! bucket n in
  SetWindowPlacement (m_hwnd w)
    {| Win32.length := Win32.sizeof_WINDOWPLACEMENT;
       Win32.flags := Win32.WPF_ASYNCWINDOWPLACEMENT;
       Win32.showCmd := stored_showCmd (Win32.showCmd saved);
       Win32.ptMinPosition := Win32.ptMinPosition saved;
       Win32.ptMaxPosition := Win32.ptMaxPosition saved;
       Win32.rcNormalPosition := Win32.rcNormalPosition saved |}
  ∈ (RestoreWindowPositions env n d).2.
Proof.
  intros Hi Hh Hc Hr saved.
  apply RestoreWindowPositions_calls_iff. exists i, w.
  split_and!; try done.
  rewrite (RestoreWindow_restorable _ _ _ Hr). cbn [snd]. fold saved.
  destruct Hr as (_ & _ & Hl & _). fold saved in Hl. rewrite <- Hl.
  destruct saved as [l f c pmin pmax rc]. cbn.
  destruct (c =? Win32.SW_MAXIMIZE).
  - right. left.
  - left.
Qed.

Lemma RestoreWindowPositions_complete_witness :
  let w := Sample.record Sample.calc "CalcFrame" 2
             Sample.zeroed (Sample.placement 3 (Sample.rect 30 30 350 510))
             Sample.zeroed Sample.zeroed in
  SetWindowPlacement Sample.calc
    {| Win32.length := 44; Win32.flags := 4; Win32.showCmd := 3;
       Win32.ptMinPosition := Sample.origin;
       Win32.ptMaxPosition := Sample.origin;
       Win32.rcNormalPosition := Sample.rect 30 30 350 510 |}
  ∈ (RestoreWindowPositions Sample.calc_on_three 3
       [SavedWindowData_new Sample.zeroed4; w]).2.
Proof.
  intros w.
  apply (RestoreWindowPositions_complete Sample.calc_on_three 3
           [SavedWindowData_new Sample.zeroed4; w] 1 w).
  - reflexivity.
  - by vm_compute.
  - by vm_compute.
  - repeat split; reflexivity.
Defined.

(** ** Slots chosen by FindWindowSlot *)

(** The slot [FindWindowSlot] returns, seen from [SaveWindowsCallback]:
    the array is the old one, possibly with fresh records behind it; no
    record before the slot holds the handle; the slot holds the handle, or
    no old record does and the slot is one the second loop accepts or a
    fresh one. *)
Lemma FindWindowSlot_slot env d hwnd :
  ∃ ext pData,
    FindWindowSlot env d hwnd
    = (d ++ ext, (FindWindowSlot env d hwnd).2)
    ∧ (d ++ ext) !! (FindWindowSlot env d hwnd).2 = Some pData
    ∧ Forall (λ w, m_hwnd w = NULL ∧ m_nUnusedCount w = 1) ext
    ∧ (ext = [] ∨ length ext = 32%nat)
    ∧ (∀ j y, (d ++ ext) !! j = Some y →
         (j < (FindWindowSlot env d hwnd).2)%nat → m_hwnd y ≠ hwnd)
    ∧ (m_hwnd pData = hwnd
       ∨ (Forall (λ v, m_hwnd v ≠ hwnd) d ∧ unused pData)).
Proof.
  destruct (list_find (λ w, m_hwnd w = hwnd) d) as [[i w]|] eqn:Hfind.
  { rewrite (FindWindowSlot_found _ _ _ _ _ Hfind). cbn [snd].
    apply list_find_Some in Hfind as (Hi & Hw & Hfirst).
    exists [], w. rewrite app_nil_r. split_and!; try done; eauto. }
  pose proof Hfind as Hnone. apply list_find_None in Hnone.
  destruct (list_find unused d) as [[i w]|] eqn:Hfree.
  { rewrite (FindWindowSlot_reused _ _ _ _ _ Hfind Hfree). cbn [snd].
    apply list_find_Some in Hfree as (Hi & Hw & Hfirst).
    exists [], w. rewrite app_nil_r. split_and!; try done; eauto.
    intros j y Hj _. by eapply Forall_lookup_1 in Hnone. }
  rewrite (FindWindowSlot_grown _ _ _ Hfind Hfree). cbn [snd].
  eexists _, (SavedWindowData_new (uninitialized env (length d))).
  split_and!; try done.
  - rewrite lookup_app_r by lia. by rewrite Nat.sub_diag.
  - apply Forall_fmap, Forall_forall. by intros.
  - right. by rewrite length_fmap, length_seq.
  - intros j y Hj Hlt. rewrite lookup_app_l in Hj by done.
    by eapply Forall_lookup_1 in Hnone.
  - right. split; [done|]. by left.
Qed.

(** What [SaveWindowsCallback] does for a window it tracks. *)
Lemma SaveWindowsCallback_tracked env d hwnd n :
  tracked env hwnd = true →
  ∃ ext i pData,
    (d ++ ext) !! i = Some pData
    ∧ SaveWindowsCallback env d hwnd n
      = <[i := (SetData env pData hwnd n).1]> (d ++ ext)
    ∧ Forall (λ w, m_hwnd w = NULL ∧ m_nUnusedCount w = 1) ext
    ∧ (ext = [] ∨ length ext = 32%nat)
    ∧ (∀ j y, (d ++ ext) !! j = Some y → (j < i)%nat → m_hwnd y ≠ hwnd)
    ∧ (m_hwnd pData = hwnd
       ∨ (Forall (λ v, m_hwnd v ≠ hwnd) d ∧ unused pData)).
Proof.
  intros Ht.
  destruct (FindWindowSlot_slot env d hwnd)
    as (ext & pData & E & Hslot & Hext & Hlen & Hfirst & Hcase).
  exists ext, (FindWindowSlot env d hwnd).2, pData.
  split_and!; try done.
  unfold SaveWindowsCallback. rewrite Ht, E. cbn [snd]. by rewrite Hslot.
Qed.

Lemma SaveWindowsCallback_untracked env d hwnd n :
  tracked env hwnd = false → SaveWindowsCallback env d hwnd n = d.
Proof. intros Ht. unfold SaveWindowsCallback. by rewrite Ht. Qed.

(** ** Sweeps, window by window *)

Lemma SaveWindowsCallback_slot env d hwnd n :
  tracked env hwnd = true →
  ∃ i pData,
    SaveWindowsCallback env d hwnd n !! i
    = Some (SetData env pData hwnd n).1
    ∧ (∀ j y, SaveWindowsCallback env d hwnd n !! j = Some y →
         (j < i)%nat → m_hwnd y ≠ hwnd).
Proof.
  intros Ht.
  destruct (SaveWindowsCallback_tracked env d hwnd n Ht)
    as (ext & i & pData & Hslot & -> & _ & _ & Hfirst & _).
  exists i, pData. split.
  - apply list_lookup_insert_eq. by apply lookup_lt_Some in Hslot.
  - intros j y Hj Hlt. rewrite list_lookup_insert_ne in Hj by lia. eauto.
Qed.

Lemma SetData_holds env pData hwnd n :
  m_hwnd (SetData env pData hwnd n).1 = hwnd
  ∧ m_nUnusedCount (SetData env pData hwnd n).1 = 0
  ∧ m_wndClass (SetData env pData hwnd n).1
    = RealGetWindowClass env hwnd m_wndClass_size
  ∧ (in_range n = true →
     ∀ p, window_placement env hwnd = Some p →
       m_windowPlacement (SetData env pData hwnd n).1 !!! bucket n
       = Win32.set_length Win32.sizeof_WINDOWPLACEMENT p).
Proof.
  destruct (SetData_identity env pData hwnd n) as (Hh & Hc & Hs).
  split_and!; try done. intros Hn p Hp.
  rewrite SetData_in_range by done. cbn. rewrite vlookup_insert.
  unfold GetWindowPlacement. by rewrite Hp.
Qed.

Lemma FindWindowSlot_first_match env d hwnd i w :
  d !! i = Some w → m_hwnd w = hwnd →
  (∀ j y, d !! j = Some y → (j < i)%nat → m_hwnd y ≠ hwnd) →
  FindWindowSlot env d hwnd = (d, i).
Proof.
  intros Hi Hw Hfirst. apply (FindWindowSlot_found _ _ _ _ w).
  apply list_find_Some. split_and!; try done; eauto.
Qed.

(** X7: insert, then look up.  After [SaveWindowsCallback] has handled a
    window it tracks, [FindWindowSlot] finds that window without touching
    the array, and the record it finds has the window's handle and class,
    an unused count of 0 and, for a monitor count between 2 and 5, the
    placement the window reports. *)
Theorem SaveWindowsCallback_registers (env : Environment)
    (d : list SavedWindowData) (hwnd : HWND) (n : Z) :
  tracked env hwnd = true →
  let d' := SaveWindowsCallback env d hwnd n in
  ∃ i w, FindWindowSlot env d' hwnd = (d', i)
    ∧ d' !! i = Some w
    ∧ m_hwnd w = hwnd
    ∧ m_nUnusedCount w = 0
    ∧ m_wndClass w = RealGetWindowClass env hwnd m_wndClass_size
    ∧ (in_range n = true →
       ∀ p, window_placement env hwnd = Some p →
         m_windowPlacement w !!! bucket n
         = Win32.set_length Win32.sizeof_WINDOWPLACEMENT p).
Proof.
  intros Ht d'.
  destruct (SaveWindowsCallback_slot env d hwnd n Ht)
    as (i & pData & Hi & Hfirst).
  destruct (SetData_holds env pData hwnd n) as (Hh & Hc & Hs & Hb).
  exists i, (SetData env pData hwnd n).1. split_and!; try done.
  by apply FindWindowSlot_first_match with (SetData env pData hwnd n).1.
Qed.

Lemma SaveWindowsCallback_registers_witness :
  let d := [Sample.record Sample.notepad "Notepad" 3
              Sample.zeroed Sample.zeroed Sample.zeroed Sample.zeroed] in
  let d' := SaveWindowsCallback Sample.calc_opens d Sample.calc 2 in
  ∃ i w, FindWindowSlot Sample.calc_opens d' Sample.calc = (d', i)
    ∧ d' !! i = Some w
    ∧ m_hwnd w = Sample.calc.
Proof.
  intros d d'.
  destruct (SaveWindowsCallback_registers Sample.calc_opens d Sample.calc 2
              eq_refl) as (i & w & Hf & Hi & Hh & _).
  exists i, w. split; [exact Hf|]. split; [exact Hi|exact Hh].
Defined.

(** X8: handling the same window twice in the same environment is handling
    it once: the second [SaveWindowsCallback] changes nothing, so a window
    enumerated twice takes one slot. *)
Theorem SaveWindowsCallback_idempotent (env : Environment)
    (d : list SavedWindowData) (hwnd : HWND) (n : Z) :
  SaveWindowsCallback env (SaveWindowsCallback env d hwnd n) hwnd n
  = SaveWindowsCallback env d hwnd n.
Proof.
  destruct (tracked env hwnd) eqn:Ht.
  - destruct (SaveWindowsCallback_slot env d hwnd n Ht)
      as (i & pData & Hi & Hfirst).
    set (d' := SaveWindowsCallback env d hwnd n) in *.
    assert (FindWindowSlot env d' hwnd = (d', i)) as Hfind.
    { apply FindWindowSlot_first_match with (SetData env pData hwnd n).1;
        [done| |done]. apply SetData_identity. }
    unfold SaveWindowsCallback at 1. rewrite Ht, Hfind, Hi.
    rewrite SetData_twice. by apply list_insert_id.
  - by rewrite !SaveWindowsCallback_untracked.
Qed.

(** A record that is not the window handled and that the second loop of
    [FindWindowSlot] would not accept stays where it is, as it is. *)
Lemma SaveWindowsCallback_keeps_record env d hwnd n i w :
  d !! i = Some w →
  (tracked env hwnd = true → m_hwnd w ≠ hwnd) →
  ¬ unused w →
  SaveWindowsCallback env d hwnd n !! i = Some w.
Proof.
  intros Hi Hother Hused.
  destruct (tracked env hwnd) eqn:Ht;
    [|by rewrite SaveWindowsCallback_untracked].
  destruct (SaveWindowsCallback_tracked env d hwnd n Ht)
    as (ext & i2 & pData & Hslot & -> & _ & _ & _ & Hcase).
  assert ((d ++ ext) !! i = Some w) as Hi' by by apply lookup_app_l_Some.
  destruct (decide (i2 = i)) as [->|Hne].
  - rewrite Hslot in Hi'. injection Hi' as ->.
    destruct Hcase as [Hsame|[_ Hfree]]; [|done]. by destruct Hother.
  - by rewrite list_lookup_insert_ne.
Qed.

Lemma SaveWindowsCallback_holds env d h hwnd n :
  h ≠ NULL →
  holds_window env n h d →
  holds_window env n h (SaveWindowsCallback env d hwnd n).
Proof.
  intros Hnull (i & w & Hi & Hh & Hc & Hs & Hb).
  destruct (decide (tracked env hwnd = true ∧ hwnd = h)) as [[Ht ->]|Hne].
  - destruct (SaveWindowsCallback_slot env d h n Ht)
      as (i' & pData & Hi' & _).
    destruct (SetData_holds env pData h n) as (Hh' & Hc' & Hs' & Hb').
    exists i', (SetData env pData h n).1. by split_and!.
  - exists i, w. split_and!; try done.
    apply SaveWindowsCallback_keeps_record; [done| |].
    + intros Ht E. apply Hne. split; [done|]. congruence.
    + unfold unused. rewrite Hh, Hc. intros [?|?]; [done|lia].
Qed.

Lemma EnumDesktopWindows_holds env d h n :
  tracked env h = true → h ≠ NULL → h ∈ desktop_windows env →
  holds_window env n h (EnumDesktopWindows env d n).
Proof.
  intros Ht Hnull. unfold EnumDesktopWindows.
  assert (∀ ws d, holds_window env n h d →
            holds_window env n h
              (foldl (λ d hwnd, SaveWindowsCallback env d hwnd n) d ws))
    as Hkeep.
  { induction ws as [|h2 ws IH]; intros d0 H0; cbn [foldl]; [done|].
    by apply IH, SaveWindowsCallback_holds. }
  revert d. induction (desktop_windows env) as [|h2 ws IH]; intros d Hin.
  - by apply elem_of_nil in Hin.
  - cbn [foldl]. apply elem_of_cons in Hin as [->|Hin]; [|by apply IH].
    apply Hkeep.
    destruct (SaveWindowsCallback_slot env d h2 n Ht)
      as (i & pData & Hi & _).
    destruct (SetData_holds env pData h2 n) as (Hh & Hc & Hs & Hb).
    exists i, (SetData env pData h2 n).1. by split_and!.
Qed.

(** X9: when [ProcessDesktopWindows] sweeps, every window on the desktop
    that passes the filter of [SaveWindowsCallback] ends with a record of
    its own: its handle and class, an unused count of 0 and, for a monitor
    count between 2 and 5, its current placement in the element of that
    count. *)
Theorem ProcessDesktopWindows_records_every_window (env : Environment)
    (g : InstanceData) (h : HWND) :
  SM_CMONITORS env = _NumMonitors g →
  h ∈ desktop_windows env → tracked env h = true → h ≠ NULL →
  ∃ i w, _WindowData (ProcessDesktopWindows env g) !! i = Some w
    ∧ m_hwnd w = h
    ∧ m_nUnusedCount w = 0
    ∧ m_wndClass w = RealGetWindowClass env h m_wndClass_size
    ∧ (2 ≤ SM_CMONITORS env ≤ 5 →
       ∀ p, window_placement env h = Some p →
         m_windowPlacement w !!! bucket (SM_CMONITORS env)
         = Win32.set_length Win32.sizeof_WINDOWPLACEMENT p).
Proof.
  intros Hm Hin Ht Hnull.
  rewrite ProcessDesktopWindows_sweeps by done. cbn [_WindowData with_WindowData].
  destruct (EnumDesktopWindows_holds env
              (TagWindowsUnused (_WindowData g)) h (SM_CMONITORS env)
              Ht Hnull Hin) as (i & w & Hi & Hh & Hc & Hs & Hb).
  exists i, w. split_and!; try done.
  intros Hr. apply Hb. by apply in_range_spec.
Qed.

Lemma ProcessDesktopWindows_records_every_window_witness :
  let g := {| _WindowData := [SavedWindowData_new Sample.zeroed4];
              _NumMonitors := 2; InChangingState := false |} in
  ∃ i w, _WindowData (ProcessDesktopWindows Sample.calc_opens g) !! i
         = Some w
    ∧ m_hwnd w = Sample.calc
    ∧ m_nUnusedCount w = 0.
Proof.
  intros g.
  destruct (ProcessDesktopWindows_records_every_window
              Sample.calc_opens g Sample.calc)
    as (i & w & Hi & Hh & Hc & _).
  - reflexivity.
  - vm_compute. constructor.
  - reflexivity.
  - by vm_compute.
  - exists i, w. split; [exact Hi|]. split; [exact Hh|exact Hc].
Defined.

Lemma EnumDesktopWindows_keeps_record env d n i w :
  d !! i = Some w →
  (∀ h, h ∈ desktop_windows env → tracked env h = true → h ≠ m_hwnd w) →
  ¬ unused w →
  EnumDesktopWindows env d n !! i = Some w.
Proof.
  unfold EnumDesktopWindows. intros Hi Hother Hused. revert d Hi.
  induction (desktop_windows env) as [|h ws IH]; intros d Hi; [done|].
  cbn [foldl]. apply IH.
  - intros h' Hin. apply Hother. by right.
  - apply SaveWindowsCallback_keeps_record; [done| |done].
    intros Ht E. apply (Hother h); [by left|done|done].
Qed.

(** X10: the grace period.  A record with a handle that was missed by at
    most one sweep and whose window is not among the windows the sweep
    tracks keeps its slot through the next sweep: only its unused count
    goes up by one, so its saved placements survive and it is still
    restored. *)
Theorem ProcessDesktopWindows_ages_unseen (env : Environment)
    (g : InstanceData) (i : nat) (w : SavedWindowData) :
  SM_CMONITORS env = _NumMonitors g →
  _WindowData g !! i = Some w →
  m_hwnd w ≠ NULL →
  m_nUnusedCount w ≤ 1 →
  (∀ h, h ∈ desktop_windows env → tracked env h = true → h ≠ m_hwnd w) →
  _WindowData (ProcessDesktopWindows env g) !! i
  = Some {| m_nUnusedCount := m_nUnusedCount w + 1;
            m_windowPlacement := m_windowPlacement w;
            m_hwnd := m_hwnd w;
            m_wndClass := m_wndClass w |}.
Proof.
  intros Hm Hi Hh Hc Hother.
  rewrite ProcessDesktopWindows_sweeps by done.
  cbn [_WindowData with_WindowData].
  assert (tag_unused w
          = {| m_nUnusedCount := m_nUnusedCount w + 1;
               m_windowPlacement := m_windowPlacement w;
               m_hwnd := m_hwnd w; m_wndClass := m_wndClass w |}) as Htag.
  { unfold tag_unused. rewrite bool_decide_eq_true_2 by done.
    by rewrite (proj2 (Z.ltb_lt _ _)) by lia. }
  rewrite <- Htag. apply EnumDesktopWindows_keeps_record.
  - unfold TagWindowsUnused. by rewrite list_lookup_fmap, Hi.
  - by rewrite Htag.
  - rewrite Htag. unfold unused. cbn. intros [?|?]; [done|lia].
Qed.

Lemma ProcessDesktopWindows_ages_unseen_witness :
  let w := Sample.record Sample.notepad "Notepad" 1
             (Sample.placement 1 (Sample.rect 0 0 640 480))
             Sample.zeroed Sample.zeroed Sample.zeroed in
  let g := {| _WindowData := [w]; _NumMonitors := 2;
              InChangingState := false |} in
  _WindowData (ProcessDesktopWindows Sample.calc_opens g) !! 0%nat
  = Some (Sample.record Sample.notepad "Notepad" 2
            (Sample.placement 1 (Sample.rect 0 0 640 480))
            Sample.zeroed Sample.zeroed Sample.zeroed).
Proof.
  intros w g.
  apply (ProcessDesktopWindows_ages_unseen Sample.calc_opens g 0 w).
  - reflexivity.
  - reflexivity.
  - by vm_compute.
  - by vm_compute.
  - intros h Hin _ ->. vm_compute in Hin.
    apply elem_of_cons in Hin as [Hin|Hin]; [discriminate Hin|].
    by apply elem_of_nil in Hin.
Defined.

(** ** Invariants of the array, over every run *)

Section StoreInvariant.

Variable I : list SavedWindowData → Prop.

Hypothesis I_new : ∀ env, I (_WindowData (InstanceData_new env)).
Hypothesis I_tag : ∀ d, I d → I (TagWindowsUnused d).
Hypothesis I_save :
  ∀ env d hwnd n, I d → I (SaveWindowsCallback env d hwnd n).
Hypothesis I_restore :
  ∀ env n d, I d → I (RestoreWindowPositions env n d).1.

Lemma I_ProcessDesktopWindows env g :
  I (_WindowData g) → I (_WindowData (ProcessDesktopWindows env g)).
Proof.
  intros Hg. unfold ProcessDesktopWindows. case_bool_decide; [done|].
  cbn [_WindowData with_WindowData]. unfold EnumDesktopWindows.
  generalize (TagWindowsUnused (_WindowData g)) (I_tag _ Hg).
  induction (desktop_windows env) as [|h ws IH]; intros d Hd; [done|].
  cbn [foldl]. by apply IH, I_save.
Qed.

Lemma I_ProcessMonitors env g :
  I (_WindowData g) → I (_WindowData (ProcessMonitors env g).1).
Proof.
  intros Hg. unfold ProcessMonitors.
  destruct ((SM_CMONITORS env >? 1)
            && bool_decide (_NumMonitors g ≠ SM_CMONITORS env)); [|done].
  pose proof (I_restore env (SM_CMONITORS env) _ Hg) as Hr.
  by destruct (RestoreWindowPositions env (SM_CMONITORS env) (_WindowData g)).
Qed.

Lemma I_dispatch env app e :
  I (_WindowData (g_Instance app)) →
  I (_WindowData (g_Instance (dispatch env app e).1)).
Proof.
  intros Happ. destruct e as [|dwEvent hwnd| |]; cbn [dispatch fst].
  - done.
  - unfold WinEventProcCallback.
    destruct (InChangingState (g_Instance app)); [done|].
    by destruct (_ && _).
  - destruct (timer_2 app); [|done]. by apply I_ProcessDesktopWindows.
  - destruct (timer_99 app); [|done]. unfold TimerCallback.
    pose proof (I_ProcessMonitors env (g_Instance app) Happ) as Hm.
    by destruct (ProcessMonitors env (g_Instance app)).
Qed.

Lemma I_run app es :
  I (_WindowData (g_Instance app)) →
  I (_WindowData (g_Instance (run app es).1)).
Proof.
  revert app. induction es as [|[env e] es IH]; intros app Happ; [done|].
  cbn [run]. pose proof (I_dispatch env app e Happ) as Hd.
  destruct (dispatch env app e) as [app1 calls1]. cbn [fst] in Hd.
  specialize (IH app1 Hd).
  by destruct (run app1 es).
Qed.

Lemma store_invariant env0 es :
  I (_WindowData (g_Instance (after env0 es))).
Proof.
  apply I_run. unfold InitInstance. cbn [g_Instance _WindowData].
  apply I_ProcessDesktopWindows, I_new.
Qed.

End StoreInvariant.

Lemma unique_handles_app_null d ext :
  unique_handles d → Forall (λ w, m_hwnd w = NULL) ext →
  unique_handles (d ++ ext).
Proof.
  intros Hd Hext i j v w Hi Hj E Hv.
  assert (∀ k u, (d ++ ext) !! k = Some u → m_hwnd u ≠ NULL →
            d !! k = Some u) as Hold.
  { intros k u Hk Hu. apply lookup_app_Some in Hk as [Hk|[_ Hk]]; [done|].
    by eapply Forall_lookup_1 in Hext. }
  apply (Hd i j v w); try done; apply Hold; congruence.
Qed.

Lemma unique_handles_new env :
  unique_handles (_WindowData (InstanceData_new env)).
Proof.
  intros i j v w Hi _ _ Hv. unfold InstanceData_new in Hi.
  cbn [_WindowData] in Hi.
  apply list_lookup_fmap_Some in Hi as (k & -> & _). done.
Qed.

Lemma unique_handles_fmap f d :
  (∀ w, m_hwnd (f w) = m_hwnd w) →
  unique_handles d → unique_handles (f <$> d).
Proof.
  intros Hf Hd i j v w Hi Hj E Hv.
  apply list_lookup_fmap_Some in Hi as (v0 & -> & Hi).
  apply list_lookup_fmap_Some in Hj as (w0 & -> & Hj).
  rewrite !Hf in *. by apply (Hd i j v0 w0).
Qed.

Lemma unique_handles_save env d hwnd n :
  unique_handles d → unique_handles (SaveWindowsCallback env d hwnd n).
Proof.
  intros Hd. destruct (tracked env hwnd) eqn:Ht;
    [|by rewrite SaveWindowsCallback_untracked].
  destruct (SaveWindowsCallback_tracked env d hwnd n Ht)
    as (ext & i0 & pData & Hslot & -> & Hext & _ & _ & Hcase).
  assert (Forall (λ w, m_hwnd w = NULL) ext) as Hnull.
  { eapply Forall_impl; [exact Hext|]. by intros w [? _]. }
  pose proof (unique_handles_app_null d ext Hd Hnull) as Hd0.
  assert (∀ k u, (d ++ ext) !! k = Some u → m_hwnd u = hwnd →
            hwnd ≠ NULL → k = i0) as Honly.
  { intros k u Hk Hu Hh. destruct Hcase as [Hp|[Hnone _]].
    - apply (Hd0 k i0 u pData); congruence.
    - apply lookup_app_Some in Hk as [Hk|[_ Hk]].
      + by eapply Forall_lookup_1 in Hnone.
      + eapply Forall_lookup_1 in Hnull; [|done]. cbn in Hnull. congruence. }
  destruct (SetData_identity env pData hwnd n) as (Hh & _).
  intros i j v w Hi Hj E Hv.
  destruct (decide (i = i0)) as [->|Hi0], (decide (j = i0)) as [->|Hj0];
    try done.
  - rewrite list_lookup_insert_eq in Hi by by apply lookup_lt_Some in Hslot.
    rewrite list_lookup_insert_ne in Hj by done. injection Hi as <-.
    symmetry. apply (Honly j w); congruence.
  - rewrite list_lookup_insert_eq in Hj by by apply lookup_lt_Some in Hslot.
    rewrite list_lookup_insert_ne in Hi by done. injection Hj as <-.
    apply (Honly i v); congruence.
  - rewrite list_lookup_insert_ne in Hi, Hj by done.
    by apply (Hd0 i j v w).
Qed.

(** X11: in every state the application reaches, no window handle has two
    records: a window is saved in, and restored from, one slot. *)
Theorem unique_handles_always (env0 : Environment)
    (es : list (Environment * Event)) :
  ∀ i j v w,
    _WindowData (g_Instance (after env0 es)) !! i = Some v →
    _WindowData (g_Instance (after env0 es)) !! j = Some w →
    m_hwnd v = m_hwnd w → m_hwnd v ≠ NULL → i = j.
Proof.
  change (unique_handles (_WindowData (g_Instance (after env0 es)))).
  apply store_invariant.
  - apply unique_handles_new.
  - intros d Hd. apply unique_handles_fmap; [|done].
    intros w. apply tag_unused_frame.
  - intros env d hwnd n. apply unique_handles_save.
  - intros env n d Hd. rewrite RestoreWindowPositions_unfold. cbn [fst].
    apply unique_handles_fmap; [|done]. intros w. apply restore_one_frame.
Qed.

Lemma unique_handles_always_witness :
  let d := _WindowData
             (g_Instance
                (after Sample.notepad_on_third Sample.reuse_session)) in
  ∃ v, d !! 0%nat = Some v ∧ m_hwnd v = Sample.calc ∧ 0%nat = 0%nat.
Proof.
  intros d.
  exists (Sample.record Sample.calc "CalcFrame" 0
            {| Win32.length := 44; Win32.flags := 0; Win32.showCmd := 1;
               Win32.ptMinPosition := Sample.origin;
               Win32.ptMaxPosition := Sample.origin;
               Win32.rcNormalPosition := Sample.rect 30 30 350 510 |}
            {| Win32.length := 44; Win32.flags := 4; Win32.showCmd := 4;
               Win32.ptMinPosition := Sample.origin;
               Win32.ptMaxPosition := Sample.origin;
               Win32.rcNormalPosition := Sample.rect 4000 50 4640 530 |}
            Sample.zeroed Sample.zeroed).
  split; [by vm_compute|]. split; [reflexivity|].
  eapply (unique_handles_always Sample.notepad_on_third
            Sample.reuse_session 0 0).
  - by vm_compute.
  - by vm_compute.
  - reflexivity.
  - by vm_compute.
Defined.

Lemma counts_bounded_save env d hwnd n :
  counts_bounded d → counts_bounded (SaveWindowsCallback env d hwnd n).
Proof.
  intros Hd. destruct (tracked env hwnd) eqn:Ht;
    [|by rewrite SaveWindowsCallback_untracked].
  destruct (SaveWindowsCallback_tracked env d hwnd n Ht)
    as (ext & i0 & pData & Hslot & -> & Hext & _).
  apply Forall_insert.
  - apply Forall_app. split; [done|].
    eapply Forall_impl; [exact Hext|]. intros w [_ Hc]. cbn. lia.
  - destruct (SetData_identity env pData hwnd n) as (_ & Hc & _).
    rewrite Hc. lia.
Qed.

(** X12: in every state the application reaches, every unused count is
    between 0 and 100: the counter neither wraps nor goes negative. *)
Theorem counts_bounded_always (env0 : Environment)
    (es : list (Environment * Event)) :
  Forall (λ w, 0 ≤ m_nUnusedCount w ≤ 100)
    (_WindowData (g_Instance (after env0 es))).
Proof.
  change (counts_bounded (_WindowData (g_Instance (after env0 es)))).
  apply store_invariant.
  - intros env. apply Forall_fmap, Forall_forall. intros k _. cbn. lia.
  - intros d Hd. apply Forall_fmap. eapply Forall_impl; [exact Hd|].
    intros w Hw. cbn. cbn beta in Hw.
    rewrite tag_unused_count. unfold tagged_count.
    case_decide; lia.
  - intros env d hwnd n. apply counts_bounded_save.
  - intros env n d Hd. rewrite RestoreWindowPositions_unfold. cbn [fst].
    apply Forall_fmap. eapply Forall_impl; [exact Hd|].
    intros w Hw. cbn.
    by rewrite (proj1 (proj2 (restore_one_frame env w n))).
Qed.

Lemma SaveWindowsCallback_length env d hwnd n :
  length (SaveWindowsCallback env d hwnd n) = length d
  ∨ length (SaveWindowsCallback env d hwnd n) = (length d + 32)%nat.
Proof.
  destruct (tracked env hwnd) eqn:Ht;
    [|left; by rewrite SaveWindowsCallback_untracked].
  destruct (SaveWindowsCallback_tracked env d hwnd n Ht)
    as (ext & i0 & pData & _ & -> & _ & [->|Hlen] & _).
  - left. by rewrite length_insert, app_nil_r.
  - right. by rewrite length_insert, length_app, Hlen.
Qed.

(** X13: in every state the application reaches, the array holds a
    positive multiple of 32 records: it starts with 32, grows by 32 at a
    time and never shrinks below that. *)
Theorem capacity_multiple_of_32 (env0 : Environment)
    (es : list (Environment * Event)) :
  ∃ k : nat,
    length (_WindowData (g_Instance (after env0 es))) = (32 * S k)%nat.
Proof.
  apply (store_invariant (λ d, ∃ k : nat, length d = (32 * S k)%nat)).
  - intros env. exists 0%nat. unfold InstanceData_new. cbn [_WindowData].
    by rewrite length_fmap, length_seq.
  - intros d (k & Hk). exists k. unfold TagWindowsUnused.
    by rewrite length_fmap.
  - intros env d hwnd n (k & Hk).
    destruct (SaveWindowsCallback_length env d hwnd n) as [E|E].
    + exists k. by rewrite E.
    + exists (S k). rewrite E, Hk. lia.
  - intros env n d (k & Hk). exists k.
    rewrite RestoreWindowPositions_unfold. cbn [fst].
    by rewrite length_fmap.
Qed.

(** ** The protocol of the two timers *)

Lemma ProcessDesktopWindows_keeps_flags env g :
  _NumMonitors (ProcessDesktopWindows env g) = _NumMonitors g
  ∧ InChangingState (ProcessDesktopWindows env g) = InChangingState g.
Proof. unfold ProcessDesktopWindows. by case_bool_decide. Qed.

Lemma ProcessMonitors_clears env g :
  InChangingState (ProcessMonitors env g).1 = false.
Proof.
  unfold ProcessMonitors.
  by destruct (if (SM_CMONITORS env >? 1) && _
               then RestoreWindowPositions env _ _ else _).
Qed.

Lemma dispatch_flag_is_timer env app e :
  InChangingState (g_Instance app) = timer_99 app →
  InChangingState (g_Instance (dispatch env app e).1)
  = timer_99 (dispatch env app e).1.
Proof.
  intros H. destruct e as [|dwEvent hwnd| |]; cbn [dispatch fst].
  - done.
  - unfold WinEventProcCallback.
    destruct (InChangingState (g_Instance app)) eqn:E; [by rewrite E|].
    destruct (_ && _); cbn; congruence.
  - destruct (timer_2 app); [|done]. cbn.
    by rewrite (proj2 (ProcessDesktopWindows_keeps_flags env _)).
  - destruct (timer_99 app) eqn:E; [|cbn; congruence].
    unfold TimerCallback.
    pose proof (ProcessMonitors_clears env (g_Instance app)) as Hs.
    by destruct (ProcessMonitors env (g_Instance app)).
Qed.

Lemma run_flag_is_timer app es :
  InChangingState (g_Instance app) = timer_99 app →
  InChangingState (g_Instance (run app es).1) = timer_99 (run app es).1.
Proof.
  revert app. induction es as [|[env e] es IH]; intros app Happ; [done|].
  cbn [run]. pose proof (dispatch_flag_is_timer env app e Happ) as Hd.
  destruct (dispatch env app e) as [app1 calls1]. cbn [fst] in Hd.
  specialize (IH app1 Hd). by destruct (run app1 es).
Qed.

(** X14: in every state the application reaches, [InChangingState] is set
    exactly while timer 99 is armed: whenever window events are being
    ignored, the handler that clears the flag is still to come. *)
Theorem changing_state_iff_timer_armed (env0 : Environment)
    (es : list (Environment * Event)) :
  InChangingState (g_Instance (after env0 es)) = timer_99 (after env0 es).
Proof.
  apply run_flag_is_timer. unfold InitInstance.
  cbn [g_Instance InChangingState timer_99].
  by rewrite (proj2 (ProcessDesktopWindows_keeps_flags env0 _)).
Qed.

Lemma dispatch_calls env app e c :
  c ∈ (dispatch env app e).2 →
  e = WM_TIMER_99
  ∧ c ∈ (RestoreWindowPositions env (SM_CMONITORS env)
           (_WindowData (g_Instance app))).2.
Proof.
  destruct e as [|dwEvent hwnd| |]; cbn [dispatch snd];
    try (intros H; by apply elem_of_nil in H).
  - destruct (timer_2 app); intros H; by apply elem_of_nil in H.
  - destruct (timer_99 app); [|intros H; by apply elem_of_nil in H].
    unfold TimerCallback.
    pose proof (ProcessMonitors_calls env (g_Instance app)) as Hc.
    destruct (ProcessMonitors env (g_Instance app)) as [g calls].
    cbn [snd] in *. subst calls. case_decide as Hcond.
    + intros Hin. by split.
    + intros Hin. by apply elem_of_nil in Hin.
Qed.

(** X15: whatever the events, the program acts on other windows only
    when timer 99 fires with between 2 and 5 monitors reported, and then
    only by [SetWindowPlacement] with WPF_ASYNCWINDOWPLACEMENT on a handle
    that is not NULL and is a window at that moment.  Sweeps and window
    events move nothing. *)
Theorem run_calls_safe (app : App) (es : list (Environment * Event))
    (c : Call) :
  c ∈ (run app es).2 →
  ∃ env h p,
    c = SetWindowPlacement h p
    ∧ (env, WM_TIMER_99) ∈ es
    ∧ 2 ≤ SM_CMONITORS env ≤ 5
    ∧ h ≠ NULL
    ∧ IsWindow env h = true
    ∧ Win32.flags p = Win32.WPF_ASYNCWINDOWPLACEMENT
    ∧ Win32.length p = Win32.sizeof_WINDOWPLACEMENT.
Proof.
  revert app. induction es as [|[env e] es IH]; intros app; cbn [run].
  { intros H. by apply elem_of_nil in H. }
  pose proof (dispatch_calls env app e c) as Hd.
  destruct (dispatch env app e) as [app1 calls1]. cbn [snd] in Hd.
  specialize (IH app1). destruct (run app1 es) as [app2 calls2].
  cbn [snd] in *. intros [Hc|Hc]%elem_of_app.
  - destruct (Hd Hc) as [-> Hin]. destruct c as [h p].
    apply RestoreWindowPositions_calls_iff in Hin
      as (i & w & _ & Hh & _ & Hin).
    apply RestoreWindow_calls_safe in Hin
      as ((Hn & Hw & Hl & _) & -> & Hf & (Hg & _)).
    apply in_range_spec in Hn.
    exists env, (m_hwnd w), p.
    split_and!; try done; try lia; try (by left); by rewrite Hg.
  - destruct (IH Hc) as (env' & h & p & -> & Hin & Hrest).
    exists env', h, p. split_and!; try done; try tauto. by right.
Qed.

Lemma run_calls_safe_witness :
  ∃ env h p,
    (env, WM_TIMER_99) ∈ Sample.reuse_session
    ∧ 2 ≤ SM_CMONITORS env ≤ 5
    ∧ h ≠ NULL
    ∧ Win32.flags p = Win32.WPF_ASYNCWINDOWPLACEMENT.
Proof.
  destruct (run_calls_safe (InitInstance Sample.notepad_on_third)
              Sample.reuse_session
              (SetWindowPlacement Sample.calc
                 {| Win32.length := 44; Win32.flags := 4;
                    Win32.showCmd := 4;
                    Win32.ptMinPosition := Sample.origin;
                    Win32.ptMaxPosition := Sample.origin;
                    Win32.rcNormalPosition :=
                      Sample.rect 4000 50 4640 530 |}))
    as (env & h & p & _ & Hin & Hn & Hh & _ & Hf & _).
  - vm_compute. constructor.
  - exists env, h, p. split; [exact Hin|]. split; [exact Hn|].
    split; [exact Hh|exact Hf].
Defined.

(** ** InitInstance *)

Lemma FindWindowSlot_array env d hwnd :
  (FindWindowSlot env d hwnd).1 = d
  ∨ (FindWindowSlot env d hwnd).1
    = d ++ ((λ i, SavedWindowData_new (uninitialized env i))
              <$> seq (length d) 32).
Proof.
  destruct (list_find (λ w, m_hwnd w = hwnd) d) as [[i w]|] eqn:Hfind.
  { left. by rewrite (FindWindowSlot_found _ _ _ _ _ Hfind). }
  destruct (list_find unused d) as [[i w]|] eqn:Hfree.
  { left. by rewrite (FindWindowSlot_reused _ _ _ _ _ Hfind Hfree). }
  right. by rewrite (FindWindowSlot_grown _ _ _ Hfind Hfree).
Qed.

(** X16: [InitInstance] records no placement.  It sweeps before it has
    read the monitor count, while [_NumMonitors] is still 1: with several
    monitors the sweep is skipped, with one monitor it stores no placement.
    Every record's array is left as the memory had it, so the windows open
    at launch are first captured by the sweep that follows a later window
    event. *)
Theorem InitInstance_captures_nothing (env : Environment) (i : nat)
    (w : SavedWindowData) :
  _WindowData (g_Instance (InitInstance env)) !! i = Some w →
  m_windowPlacement w = uninitialized env i
  ∧ _NumMonitors (g_Instance (InitInstance env)) = SM_CMONITORS env
  ∧ (SM_CMONITORS env ≠ 1 → m_hwnd w = NULL).
Proof.
  set (J := λ d : list SavedWindowData,
         ∀ i w, d !! i = Some w → m_windowPlacement w = uninitialized env i).
  assert (J (_WindowData (InstanceData_new env))) as Hnew.
  { intros j v Hj. unfold InstanceData_new in Hj. cbn [_WindowData] in Hj.
    apply list_lookup_fmap_Some in Hj as (k & -> & Hk).
    apply lookup_seq in Hk as [-> _]. done. }
  assert (∀ d, J d → J (TagWindowsUnused d)) as Htag.
  { intros d Hd j v Hj. unfold TagWindowsUnused in Hj.
    apply list_lookup_fmap_Some in Hj as (v0 & -> & Hj).
    rewrite (proj2 (proj2 (tag_unused_frame v0))). by apply Hd. }
  assert (∀ d hwnd, J d → J (SaveWindowsCallback env d hwnd 1)) as Hsave.
  { intros d hwnd Hd. unfold SaveWindowsCallback.
    destruct (tracked env hwnd); [|done].
    assert (J (FindWindowSlot env d hwnd).1) as Hd0.
    { destruct (FindWindowSlot_array env d hwnd) as [->| ->]; [done|].
      intros j v Hj. apply lookup_app_Some in Hj as [Hj|[Hge Hj]];
        [by apply Hd|].
      apply list_lookup_fmap_Some in Hj as (k & -> & Hk).
      apply lookup_seq in Hk as [-> _]. cbn. f_equal. lia. }
    destruct (FindWindowSlot env d hwnd) as [d0 i0]. cbn [fst] in Hd0.
    destruct (d0 !! i0) as [pData|] eqn:Hslot; [|done].
    intros j v Hj. destruct (decide (j = i0)) as [->|Hne].
    - rewrite list_lookup_insert_eq in Hj by by apply lookup_lt_Some in Hslot.
      injection Hj as Hj. subst v. cbn [m_windowPlacement].
      by apply Hd0.
    - rewrite list_lookup_insert_ne in Hj by done. by apply Hd0. }
  intros Hi. split_and!.
  - revert i w Hi. fold (J (_WindowData (g_Instance (InitInstance env)))).
    unfold InitInstance. cbn [g_Instance _WindowData].
    unfold ProcessDesktopWindows. case_bool_decide as Hm; [done|].
    cbn [_WindowData with_WindowData InstanceData_new _NumMonitors] in *.
    assert (SM_CMONITORS env = 1) as ->.
    { destruct (decide (SM_CMONITORS env = 1)); [done|by destruct Hm]. }
    unfold EnumDesktopWindows.
    generalize (TagWindowsUnused
                  ((λ i, SavedWindowData_new (uninitialized env i))
                     <$> seq 0 32)) (Htag _ Hnew).
    induction (desktop_windows env) as [|h ws IH]; intros d Hd; [done|].
    cbn [foldl]. by apply IH, Hsave.
  - done.
  - intros Hm. unfold InitInstance in Hi. cbn [g_Instance _WindowData] in Hi.
    rewrite ProcessDesktopWindows_skips in Hi by done.
    unfold InstanceData_new in Hi. cbn [_WindowData] in Hi.
    by apply list_lookup_fmap_Some in Hi as (k & -> & _).
Qed.

Lemma InitInstance_captures_nothing_witness :
  ∃ w, _WindowData (g_Instance (InitInstance Sample.calc_opens)) !! 0%nat
       = Some w
    ∧ m_windowPlacement w = Sample.zeroed4
    ∧ m_hwnd w = NULL.
Proof.
  exists (SavedWindowData_new Sample.zeroed4).
  assert (_WindowData (g_Instance (InitInstance Sample.calc_opens)) !! 0%nat
          = Some (SavedWindowData_new Sample.zeroed4)) as Hi
    by reflexivity.
  destruct (InitInstance_captures_nothing Sample.calc_opens 0 _ Hi)
    as (Hp & _ & Hh).
  split; [exact Hi|]. split; [exact Hp|]. apply Hh. by vm_compute.
Defined.

(** ** Window events coalesce *)

Lemma WinEventProcCallback_cases app dwEvent hwnd :
  WinEventProcCallback app dwEvent hwnd = app
  ∨ (InChangingState (g_Instance app) = false
     ∧ WinEventProcCallback app dwEvent hwnd
       = {| g_Instance := g_Instance app; timer_2 := true;
            timer_99 := timer_99 app |}).
Proof.
  unfold WinEventProcCallback.
  destruct (InChangingState (g_Instance app)); [by left|].
  destruct (_ && _); [by right|by left].
Qed.

(** X17: window events are debounced.  However many window events arrive
    in a row, no call is made and no sweep runs: the application is left
    as it was, or as it was with timer 2 armed, and it is armed only if
    [InChangingState] is clear. *)
Theorem window_events_coalesce (app : App)
    (es : list (Environment * Event)) :
  Forall (λ ee, ∃ dwEvent hwnd, ee.2 = WinEvent dwEvent hwnd) es →
  (run app es).2 = []
  ∧ ((run app es).1 = app
     ∨ (InChangingState (g_Instance app) = false
        ∧ (run app es).1
          = {| g_Instance := g_Instance app; timer_2 := true;
               timer_99 := timer_99 app |})).
Proof.
  revert app. induction es as [|[env e] es IH]; intros app Hes.
  { split; [done|by left]. }
  apply Forall_cons in Hes as [(dwEvent & hwnd & He) Hes]. cbn in He.
  subst e. cbn [run dispatch].
  specialize (IH (WinEventProcCallback app dwEvent hwnd) Hes).
  destruct (run (WinEventProcCallback app dwEvent hwnd) es)
    as [app2 calls2]. cbn [fst snd] in *.
  destruct IH as [-> IH]. split; [done|].
  destruct (WinEventProcCallback_cases app dwEvent hwnd) as [E|[Hc E]];
    rewrite E in IH.
  - done.
  - right. split; [done|]. cbn in IH. by destruct IH as [->|[_ ->]].
Qed.

Lemma window_events_coalesce_witness :
  let es := [(Sample.calc_opens,
              WinEvent Win32.EVENT_OBJECT_LOCATIONCHANGE Sample.calc);
             (Sample.calc_opens,
              WinEvent Win32.EVENT_SYSTEM_MOVESIZEEND Sample.calc);
             (Sample.calc_opens,
              WinEvent Win32.EVENT_OBJECT_LOCATIONCHANGE Sample.notepad)] in
  (run (InitInstance Sample.calc_opens) es).2 = [].
Proof.
  intros es.
  refine (proj1 (window_events_coalesce (InitInstance Sample.calc_opens)
                   es _)).
  repeat constructor; cbn; eauto.
Defined.

(** ** The debug log *)

Lemma string_length_app (s1 s2 : string) :
  String.length (s1 +:+ s2) = (String.length s1 + String.length s2)%nat.
Proof. induction s1 as [|c s1 IH]; simpl; [done|]. by rewrite IH. Qed.

Lemma substring_all (s : string) :
  String.substring 0 (String.length s) s = s.
Proof. induction s as [|c s IH]; simpl; [done|]. by rewrite IH. Qed.

Lemma substring_none (s : string) : String.substring 0 0 s = "".
Proof. by destruct s. Qed.

Lemma LogMessage_cases log str :
  ((String.length log + String.length str < LOGBUFFERSIZE)%nat
   ∧ LogMessage log str = log +:+ str)
  ∨ ((LOGBUFFERSIZE ≤ String.length log + String.length str)%nat
     ∧ LogMessage log str = str).
Proof.
  unfold LogMessage.
  destruct (Nat.leb_spec LOGBUFFERSIZE
              (String.length log + String.length str)) as [H|H].
  - right. split; [done|]. by rewrite substring_none.
  - left. split; [done|]. by rewrite substring_all.
Qed.

(** X18: the debug log stays inside its buffer.  After any sequence of
    messages, each shorter than the buffer, the text and its terminator
    fit in [LOGBUFFERSIZE] characters; a message that would not fit does
    not get appended but replaces the whole log. *)
Theorem LogMessage_fits (log : string) (msgs : list string) :
  Forall (λ str, (String.length str < LOGBUFFERSIZE)%nat) msgs →
  (String.length log < LOGBUFFERSIZE)%nat →
  (String.length (foldl LogMessage log msgs) < LOGBUFFERSIZE)%nat
  ∧ ∀ str, (LOGBUFFERSIZE ≤ String.length log + String.length str)%nat →
           LogMessage log str = str.
Proof.
  intros Hmsgs Hlog. split.
  - revert log Hlog. induction Hmsgs as [|str msgs Hstr _ IH];
      intros log Hlog; [done|].
    cbn [foldl]. apply IH.
    destruct (LogMessage_cases log str) as [[H ->]|[H ->]]; [|done].
    by rewrite string_length_app.
  - intros str H. by destruct (LogMessage_cases log str) as [[? _]|[_ ->]];
      [lia|].
Qed.

Lemma LogMessage_fits_witness :
  (String.length
     (foldl LogMessage "" ["WM_DISPLAYCHANGE"; "Monitors: 2"])
   < LOGBUFFERSIZE)%nat.
Proof.
  refine (proj1 (LogMessage_fits "" ["WM_DISPLAYCHANGE"; "Monitors: 2"]
                   _ _)).
  - apply Forall_cons. split; [by apply Nat.ltb_lt|].
    apply Forall_cons. split; [by apply Nat.ltb_lt|]. apply Forall_nil_2.
  - by apply Nat.ltb_lt.
Defined.

(** ** The scroll bar of the log window *)

Lemma int32_id z : -2 ^ 31 ≤ z < 2 ^ 31 → Win32.int32 z = z.
Proof.
  intros H. unfold Win32.int32. rewrite Z.mod_small; lia.
Qed.

Lemma clamp_spec q :
  (if (if q <? 0 then 0 else q) >? 10000 then 10000
   else (if q <? 0 then 0 else q))
  = Z.min 10000 (Z.max 0 q).
Proof.
  destruct (Z.ltb_spec q 0); [cbn; lia|].
  destruct (Z.gtb_spec q 10000); lia.
Qed.

(** X19: the [WM_VSCROLL] arm never hands [SetScrollPos] a position
    outside 0..10000, whatever the message carries and whatever the
    current position is.  From a position inside that range a page step
    moves by 1000 and stops at the ends, SB_BOTTOM goes to 10000, and
    SB_TOP leaves the position where it is. *)
Theorem WndProc_WM_VSCROLL_in_range (pos wParam p : Z) :
  WndProc_WM_VSCROLL pos wParam = Some p →
  0 ≤ p ≤ 10000
  ∧ (0 ≤ pos ≤ 10000 →
     (Win32.LOWORD wParam = Win32.SB_TOP → p = pos)
     ∧ (Win32.LOWORD wParam = Win32.SB_BOTTOM → p = 10000)
     ∧ (Win32.LOWORD wParam = Win32.SB_PAGEDOWN →
        p = Z.min 10000 (pos + 1000))
     ∧ (Win32.LOWORD wParam = Win32.SB_PAGEUP →
        p = Z.max 0 (pos - 1000))).
Proof.
  unfold WndProc_WM_VSCROLL.
  set (cmd := Win32.LOWORD wParam).
  set (moved := if cmd =? Win32.SB_BOTTOM then _ else _).
  intros H.
  assert (∀ q, moved = Some q → p = Z.min 10000 (Z.max 0 q)) as Hp.
  { intros q Hq. rewrite Hq in H. injection H as <-. apply clamp_spec. }
  split.
  - destruct moved as [q|]; [|done]. rewrite (Hp q eq_refl). lia.
  - intros Hpos.
    assert (Win32.int32 (pos + 0) = pos
            ∧ Win32.int32 (pos + 1000) = pos + 1000
            ∧ Win32.int32 (pos - 1000) = pos - 1000) as (E0 & E1 & E2).
    { rewrite !int32_id by lia. lia. }
    subst moved. unfold Win32.SB_TOP, Win32.SB_BOTTOM, Win32.SB_PAGEDOWN,
      Win32.SB_PAGEUP in *.
    split_and!; intros Hcmd; rewrite Hcmd in Hp; cbn in Hp;
      rewrite ?E0, ?E1, ?E2 in Hp; rewrite (Hp _ eq_refl); lia.
Qed.

Lemma WndProc_WM_VSCROLL_in_range_witness :
  WndProc_WM_VSCROLL 9500 Win32.SB_PAGEDOWN = Some 10000
  ∧ 0 ≤ 10000 ≤ 10000.
Proof.
  split; [reflexivity|].
  exact (proj1 (WndProc_WM_VSCROLL_in_range 9500 Win32.SB_PAGEDOWN 10000
                  eq_refl)).
Defined.
